(** * Unicorn engine ([unicorn/engine/engine.py]): a shallow embedding

    The module runs one OPF model over metric samples read from stdin and
    writes anomaly likelihoods to stdout.  Python values are a small
    inductive type, exceptions are values, and every method is a function
    in a state-and-exception monad over the process' observable world
    (stdout, stderr, the log and the calls made to the NuPIC / htmengine
    collaborators). *)

From Stdlib Require Import String List ZArith QArith Bool Lia.
Import ListNotations.

Local Close Scope Q_scope.
Local Open Scope string_scope.
Local Open Scope list_scope.

(** ** Python values and exceptions *)

#[warnings="-register-all"]
Inductive pyval : Type :=
| PyNone
| PyBool (b : bool)
| PyInt (z : Z)
| PyFloat (q : Q)
| PyStr (s : string)
| PyDatetime (posix : Q)
| PyList (l : list pyval)
| PyTuple (l : list pyval)
| PyDict (d : list (string * pyval)).

(** [SystemExit] and [KeyboardInterrupt] derive from [BaseException] only;
    every other exception the module can meet is an instance of a subclass
    of [Exception], kept as its class name and its message. *)
Inductive exn : Type :=
| SystemExit (code : Z)
| KeyboardInterrupt
| Error (cls : string) (msg : string).

Definition is_Exception (e : exn) : bool :=
  match e with
  | Error _ _ => true
  | SystemExit _ | KeyboardInterrupt => false
  end.

Inductive result (A : Type) : Type :=
| Ok (a : A)
| Raise (e : exn).
Arguments Ok {A} a.
Arguments Raise {A} e.

(** Exit status of the interpreter when [main()] ends with outcome [r]:
    0 on a normal return, the code of a [SystemExit], 1 for any other
    uncaught exception. *)
Definition exit_status {A : Type} (r : result A) : Z :=
  match r with
  | Ok _ => 0
  | Raise (SystemExit code) => code
  | Raise _ => 1
  end.

(** ** The world *)

(** An OPF model instance, by object identity. *)
Definition model := nat.

(** Calls made to the external collaborators, in program order. *)
Inductive event : Type :=
| EvGetParams (metricData minVal maxVal minResolution : pyval)
| EvCreate (modelConfig : pyval)
| EvEnableLearning (m : model)
| EvEnableInference (m : model) (inferenceArgs : pyval)
| EvModelRun (m : model) (inputRecord : pyval).

Inductive level : Type := INFO | ERROR.

Record World : Type := mkWorld {
  stdout : list string;          (* messages written to sys.stdout *)
  stderr : list string;          (* messages written to sys.stderr *)
  log : list (level * string);   (* records handed to g_log *)
  trace : list event;            (* collaborator calls *)
  stdout_fault : option exn;     (* what sys.stdout.write raises, if anything *)
  stderr_fault : option exn      (* what sys.stderr.write raises, if anything *)
}.

Definition M (A : Type) : Type := World -> result A * World.

Definition ret {A : Type} (a : A) : M A := fun w => (Ok a, w).

Definition raise {A : Type} (e : exn) : M A := fun w => (Raise e, w).

Definition bind {A B : Type} (m : M A) (k : A -> M B) : M B :=
  fun w =>
    match m w with
    | (Ok a, w') => k a w'
    | (Raise e, w') => (Raise e, w')
    end.

Definition lift {A : Type} (r : result A) : M A := fun w => (r, w).

Declare Scope py_scope.
Delimit Scope py_scope with py.
Notation "x <- m ;; k" := (bind m (fun x => k))
  (at level 61, m at next level, right associativity) : py_scope.
Notation "m ;; k" := (bind m (fun _ => k))
  (at level 61, right associativity) : py_scope.
Local Open Scope py_scope.

Definition with_stdout (out : list string) (w : World) : World :=
  mkWorld out (stderr w) (log w) (trace w) (stdout_fault w) (stderr_fault w).

Definition with_stderr (err : list string) (w : World) : World :=
  mkWorld (stdout w) err (log w) (trace w) (stdout_fault w) (stderr_fault w).

Definition with_log (l : list (level * string)) (w : World) : World :=
  mkWorld (stdout w) (stderr w) l (trace w) (stdout_fault w) (stderr_fault w).

Definition with_trace (t : list event) (w : World) : World :=
  mkWorld (stdout w) (stderr w) (log w) t (stdout_fault w) (stderr_fault w).

(** [sys.stdout.write(message)] followed by [sys.stdout.flush()]. *)
Definition stdout_write (message : string) : M unit :=
  fun w =>
    match stdout_fault w with
    | Some e => (Raise e, w)
    | None => (Ok tt, with_stdout (stdout w ++ [message]) w)
    end.

(** [sys.stderr.write(message)]. *)
Definition stderr_write (message : string) : M unit :=
  fun w =>
    match stderr_fault w with
    | Some e => (Raise e, w)
    | None => (Ok tt, with_stderr (stderr w ++ [message]) w)
    end.

(** [g_log.info(...)] and [g_log.exception(...)]: the logging module does
    not let a handler's failure reach the caller. *)
Definition g_log (lvl : level) (message : string) : M unit :=
  fun w => (Ok tt, with_log (log w ++ [(lvl, message)]) w).

(** A call to an external collaborator: the call is recorded, its outcome
    is the collaborator's. *)
Definition call {A : Type} (ev : event) (outcome : result A) : M A :=
  fun w => (outcome, with_trace (trace w ++ [ev]) w).

(** ** Python operations the module uses *)

Fixpoint assoc (key : string) (d : list (string * pyval)) : option pyval :=
  match d with
  | [] => None
  | (k, v) :: rest => if String.eqb k key then Some v else assoc key rest
  end.

(** [v[key]] for a string key. *)
Definition py_getitem (v : pyval) (key : string) : result pyval :=
  match v with
  | PyDict d =>
      match assoc key d with
      | Some x => Ok x
      | None => Raise (Error "KeyError" key)
      end
  | PyList _ | PyTuple _ | PyStr _ =>
      Raise (Error "TypeError" "indices must be integers")
  | _ => Raise (Error "TypeError" "object has no attribute '__getitem__'")
  end.

(** [v.get(key)]. *)
Definition py_get (v : pyval) (key : string) : result pyval :=
  match v with
  | PyDict d =>
      match assoc key d with
      | Some x => Ok x
      | None => Ok PyNone
      end
  | _ => Raise (Error "AttributeError" "object has no attribute 'get'")
  end.

(** [v[0]]. *)
Definition py_first (v : pyval) : result pyval :=
  match v with
  | PyList (x :: _) | PyTuple (x :: _) => Ok x
  | PyList [] => Raise (Error "IndexError" "list index out of range")
  | PyTuple [] => Raise (Error "IndexError" "tuple index out of range")
  | PyStr (String c _) => Ok (PyStr (String c EmptyString))
  | PyStr EmptyString => Raise (Error "IndexError" "string index out of range")
  | PyDict _ => Raise (Error "KeyError" "0")
  | _ => Raise (Error "TypeError" "object has no attribute '__getitem__'")
  end.

(** [a, b = v]: unpacking into exactly two targets. *)
Definition unpack2 (v : pyval) : result (pyval * pyval) :=
  match v with
  | PyList [a; b] | PyTuple [a; b] => Ok (a, b)
  | PyStr (String a (String b EmptyString)) =>
      Ok (PyStr (String a EmptyString), PyStr (String b EmptyString))
  | PyDict [(k1, _); (k2, _)] => Ok (PyStr k1, PyStr k2)
  | PyList (_ :: _ :: _ :: _) | PyTuple (_ :: _ :: _ :: _)
  | PyStr (String _ (String _ (String _ _))) | PyDict (_ :: _ :: _ :: _) =>
      Raise (Error "ValueError" "too many values to unpack")
  | PyList _ | PyTuple _ | PyStr _ | PyDict _ =>
      Raise (Error "ValueError" "need more than 1 value to unpack")
  | _ => Raise (Error "TypeError" "object is not iterable")
  end.

(** Truth value of a string: [if message:]. *)
Definition truthy (s : string) : bool :=
  match s with EmptyString => false | String _ _ => true end.

Definition newline : string := String (Ascii.ascii_of_nat 10) EmptyString.

(** Names bound in the module's global namespace once the module body has
    run: its imports, [g_log], its classes and functions. *)
Definition module_namespace : list string :=
  [ "__name__"; "__doc__"; "__file__"; "__package__"; "__builtins__";
    "datetime"; "json"; "logging"; "OptionParser"; "pkg_resources"; "sys";
    "validictory"; "fieldmeta"; "ModelFactory";
    "getScalarMetricWithTimeOfDayParams"; "g_log";
    "_Options"; "_parseArgs"; "_Anomalizer"; "_ModelRunner"; "main" ].

(** Names of the interpreter's builtin namespace (functions, constants and
    the exception classes), searched after the module's globals. *)
Definition builtin_names : list string :=
  [ "abs"; "all"; "any"; "apply"; "basestring"; "bin"; "bool"; "buffer";
    "bytearray"; "bytes"; "callable"; "chr"; "classmethod"; "cmp"; "coerce";
    "compile"; "complex"; "delattr"; "dict"; "dir"; "divmod"; "enumerate";
    "eval"; "execfile"; "file"; "filter"; "float"; "format"; "frozenset";
    "getattr"; "globals"; "hasattr"; "hash"; "help"; "hex"; "id"; "input";
    "int"; "intern"; "isinstance"; "issubclass"; "iter"; "len"; "list";
    "locals"; "long"; "map"; "max"; "memoryview"; "min"; "next"; "object";
    "oct"; "open"; "ord"; "pow"; "print"; "property"; "range"; "raw_input";
    "reduce"; "reload"; "repr"; "reversed"; "round"; "set"; "setattr";
    "slice"; "sorted"; "staticmethod"; "str"; "sum"; "super"; "tuple";
    "type"; "unichr"; "unicode"; "vars"; "xrange"; "zip"; "__import__";
    "True"; "False"; "None"; "Ellipsis"; "NotImplemented"; "__debug__";
    "BaseException"; "Exception"; "StandardError"; "ArithmeticError";
    "AssertionError"; "AttributeError"; "EOFError"; "EnvironmentError";
    "IOError"; "ImportError"; "IndexError"; "KeyError"; "KeyboardInterrupt";
    "LookupError"; "MemoryError"; "NameError"; "NotImplementedError";
    "OSError"; "OverflowError"; "RuntimeError"; "StopIteration";
    "SyntaxError"; "SystemError"; "SystemExit"; "TypeError";
    "UnboundLocalError"; "UnicodeError"; "ValueError"; "ZeroDivisionError";
    "GeneratorExit"; "Warning" ].

Definition bound (name : string) : bool :=
  existsb (String.eqb name) module_namespace
  || existsb (String.eqb name) builtin_names.

(** Reading a global name inside a function body. *)
Definition load_global (name : string) : M unit :=
  if bound name then ret tt
  else raise (Error "NameError"
                ("global name '" ++ name ++ "' is not defined")).

(** ** External collaborators *)

(** What the module imports and does not define: optparse, json,
    validictory, datetime, htmengine's parameter selection and NuPIC's
    OPF model.  The stateful ones see the calls made so far. *)
Record Externals : Type := mkExternals {
  (* OptionParser.parse_args(): options.modelId, options.stats and the
     positional arguments *)
  parse_args : M (option string * option string * list string);
  usage : string;
  json_loads : string -> result pyval;
  (* the text json.dumps returns for a value it can serialise *)
  json_dumps : pyval -> string;
  (* validictory.validate against engine/stats_schema.json *)
  validate_stats : pyval -> result unit;
  utcfromtimestamp : pyval -> result pyval;
  getScalarMetricWithTimeOfDayParams :
    pyval -> pyval -> pyval -> pyval -> result pyval;
  ModelFactory_create : pyval -> result model;
  enableLearning : model -> result unit;
  enableInference : model -> pyval -> result unit;
  (* model.run(inputRecord).inferences["anomalyScore"] *)
  model_run : list event -> model -> pyval -> result pyval;
  (* calling the object a global name is bound to *)
  call_global : string -> list pyval -> result pyval;
  py_str : exn -> string;
  py_repr : exn -> string;
  (* issubclass(cls, base) for two distinct classes of the libraries *)
  issubclass : string -> string -> bool
}.

(** [isinstance(e, base)] for a class [base] deriving from [Exception]:
    what an [except base] clause catches. *)
Definition isinstance (ext : Externals) (e : exn) (base : string) : bool :=
  match e with
  | Error cls _ => String.eqb cls base || issubclass ext cls base
  | SystemExit _ | KeyboardInterrupt => false
  end.

(** The values [json.dumps] serialises; on any other it raises TypeError. *)
Fixpoint json_serialisable (v : pyval) : bool :=
  let fix all (l : list pyval) : bool :=
    match l with
    | [] => true
    | x :: rest => json_serialisable x && all rest
    end in
  let fix all_values (d : list (string * pyval)) : bool :=
    match d with
    | [] => true
    | (_, x) :: rest => json_serialisable x && all_values rest
    end in
  match v with
  | PyNone | PyBool _ | PyInt _ | PyFloat _ | PyStr _ => true
  | PyDatetime _ => false
  | PyList l | PyTuple l => all l
  | PyDict d => all_values d
  end.

(** ** The module *)

Record _Options : Type := mk_Options {
  modelId : string;
  stats : pyval
}.

(** [_Anomalizer] defines no [__init__] and no attribute. *)
Inductive _Anomalizer : Type := new_Anomalizer.

Record _ModelRunner : Type := mk_ModelRunner {
  _modelId : string;
  _model : option model;          (* [None] is Python's None *)
  _anomalizer : _Anomalizer
}.

(** [_ModelRunner._INPUT_RECORD_SCHEMA]: two [FieldMetaInfo] triples. *)
Definition _INPUT_RECORD_SCHEMA : pyval :=
  PyTuple [ PyTuple [PyStr "c0"; PyStr "datetime"; PyStr "T"];
            PyTuple [PyStr "c1"; PyStr "float"; PyStr ""] ].

(** The body of [for rowIndex, inputRow in enumerate(gen)]: [gen] is the
    sequence of the generator's steps, each a yielded item or the
    exception the generator raised; its end is StopIteration. *)
Fixpoint for_enumerate {A : Type} (rowIndex : nat) (gen : list (result A))
    (body : nat -> A -> M unit) : M unit :=
  match gen with
  | [] => ret tt
  | Raise e :: _ => raise e
  | Ok inputRow :: rest =>
      body rowIndex inputRow ;; for_enumerate (S rowIndex) rest body
  end.

Section Engine.

Variable ext : Externals.

(** [parser.error(msg)]: usage and message on stderr, then [sys.exit(2)]. *)
Definition parser_error {A : Type} (msg : string) : M A :=
  stderr_write (usage ext ++ msg)%string ;; raise (SystemExit 2).

Definition _parseArgs : M _Options :=
  parsed <- parse_args ext ;;
  let '(optModelId, optStats, positionalArgs) := parsed in
  (if negb (Nat.eqb (List.length positionalArgs) 0)
   then parser_error "Command accepts no positional args"
   else ret tt) ;;
  theModelId <- match optModelId with
                | Some (String c s) => ret (String c s)
                | _ => parser_error "Missing or empty --modelId option value"
                end ;;
  statsText <- match optStats with
               | Some (String c s) => ret (String c s)
               | _ => parser_error "Missing or empty --stats option value"
               end ;;
  theStats <- lift (json_loads ext statsText) ;;
  match validate_stats ext theStats with
  | Ok _ => ret tt
  | Raise ex =>
      if isinstance ext ex "ValidationError"
      then parser_error ("--stats option value failed schema validation: "
                         ++ py_repr ext ex)
      else raise ex
  end ;;
  ret (mk_Options theModelId theStats).

(** [_Anomalizer.process]: the body is [pass]. *)
Definition process (self : _Anomalizer)
    (timestamp metricValue rawAnomalyScore : pyval) : M pyval :=
  ret PyNone.

(** [_ModelRunner._createModel]: the body ends without a [return]. *)
Definition _createModel (theStats : pyval) : M (option model) :=
  minVal <- lift (py_getitem theStats "min") ;;
  maxVal <- lift (py_getitem theStats "max") ;;
  minResolution <- lift (py_get theStats "minResolution") ;;
  possibleModels <-
    call (EvGetParams (PyList [PyInt 0]) minVal maxVal minResolution)
         (getScalarMetricWithTimeOfDayParams ext
            (PyList [PyInt 0]) minVal maxVal minResolution) ;;
  swarmParams <- lift (py_first possibleModels) ;;
  modelConfig <- lift (py_getitem swarmParams "modelConfig") ;;
  m <- call (EvCreate modelConfig) (ModelFactory_create ext modelConfig) ;;
  call (EvEnableLearning m) (enableLearning ext m) ;;
  inferenceArgs <- lift (py_getitem swarmParams "inferenceArgs") ;;
  call (EvEnableInference m inferenceArgs)
       (enableInference ext m inferenceArgs) ;;
  ret None.

(** [_ModelRunner.__init__]. *)
Definition _ModelRunner_init (theModelId : string) (theStats : pyval)
    : M _ModelRunner :=
  m <- _createModel theStats ;;
  ret (mk_ModelRunner theModelId m new_Anomalizer).

(** One pass of the generator's [while True] body on a line that
    [readline] returned non-empty. *)
Definition parse_message (message : string) : result (pyval * pyval) :=
  match json_loads ext message with
  | Raise e => Raise e
  | Ok v =>
      match unpack2 v with
      | Raise e => Raise e
      | Ok (timestamp, scalarValue) =>
          match utcfromtimestamp ext timestamp with
          | Raise e => Raise e
          | Ok t => Ok (t, scalarValue)
          end
      end
  end.

(** [_ModelRunner._readInputMessages]: the generator's steps on the lines
    [sys.stdin.readline()] will return; past the last line, and on an
    empty line, [readline] has returned the empty string and the
    generator breaks. *)
Fixpoint _readInputMessages (stdin : list string)
    : list (result (pyval * pyval)) :=
  match stdin with
  | [] => []
  | message :: rest =>
      if truthy message then
        match parse_message message with
        | Ok inputRow => Ok inputRow :: _readInputMessages rest
        | Raise e => [Raise e]
        end
      else []
  end.

(** [_ModelRunner._emitOutputMessage]: the message is built, by
    [json.dumps], before anything is written. *)
Definition _emitOutputMessage (rowIndex : nat) (anomalyLikelihood : pyval)
    : M unit :=
  if json_serialisable (PyList [PyInt (Z.of_nat rowIndex); anomalyLikelihood])
  then
    let message :=
      (json_dumps ext (PyList [PyInt (Z.of_nat rowIndex); anomalyLikelihood])
       ++ newline)%string in
    stdout_write message
  else raise (Error "TypeError" "is not JSON serializable").

(** [_ModelRunner._computeAnomalyLikelihood]. *)
Definition _computeAnomalyLikelihood (self : _ModelRunner)
    (inputRow : pyval * pyval) : M pyval :=
  load_global "opfModelInputRecordFromSequence" ;;
  inputRecord <-
    lift (call_global ext "opfModelInputRecordFromSequence"
            [PyTuple [fst inputRow; snd inputRow]; _INPUT_RECORD_SCHEMA]) ;;
  rawAnomalyScore <-
    match _model self with
    | None => raise (Error "AttributeError"
                       "'NoneType' object has no attribute 'run'")
    | Some m =>
        fun w => call (EvModelRun m inputRecord)
                      (model_run ext (trace w) m inputRecord) w
    end ;;
  process (_anomalizer self) (fst inputRow) (snd inputRow) rawAnomalyScore.

(** [_ModelRunner.run]. *)
Definition run (self : _ModelRunner) (stdin : list string) : M unit :=
  g_log INFO ("Processing model=" ++ _modelId self)%string ;;
  for_enumerate 0 (_readInputMessages stdin)
    (fun rowIndex inputRow =>
       anomalyLikelihood <- _computeAnomalyLikelihood self inputRow ;;
       _emitOutputMessage rowIndex anomalyLikelihood).

(** [_ModelRunner(modelId=..., stats=...).run()]. *)
Definition construct_and_run (theModelId : string) (theStats : pyval)
    (stdin : list string) : M unit :=
  self <- _ModelRunner_init theModelId theStats ;;
  run self stdin.

(** The [try] suite of [main]. *)
Definition main_body (stdin : list string) : M unit :=
  options <- _parseArgs ;;
  construct_and_run (modelId options) (stats options) stdin.

(** The error object [main] renders for exception [ex]. *)
Definition errorMessage (ex : exn) : string :=
  (json_dumps ext
     (PyDict [ ("errorText",
                PyStr (if truthy (py_str ext ex) then py_str ext ex
                       else py_repr ext ex));
               ("diagnosticInfo", PyStr (py_repr ext ex)) ])
   ++ newline)%string.

(** [main]: [except Exception] logs, then re-raises from a [try] whose
    [finally] writes the error object to stderr; a failure of that write
    is logged if it is an [Exception] and replaces the pending exception
    otherwise. *)
Definition main (stdin : list string) : M unit :=
  fun w =>
    match main_body stdin w with
    | (Ok r, w1) => (Ok r, w1)
    | (Raise ex, w1) =>
        if is_Exception ex then
          let w2 := snd (g_log ERROR "Engine failed" w1) in
          match stderr_write (errorMessage ex) w2 with
          | (Ok _, w3) => (Raise ex, w3)
          | (Raise ex', w3) =>
              if is_Exception ex' then
                (Raise ex,
                 snd (g_log ERROR
                        ("Failed to emit error message to stderr; msg="
                         ++ errorMessage ex) w3))
              else (Raise ex', w3)
          end
        else (Raise ex, w1)
    end.

End Engine.

(** ** Driving the estimator and comparing its results *)

(** A sequence of calls to [process] on one [_Anomalizer], each sample a
    [(timestamp, metricValue, rawAnomalyScore)] triple; the returned
    likelihoods in call order. *)
Fixpoint feed (self : _Anomalizer)
    (samples : list (pyval * pyval * pyval)) : M (list pyval) :=
  match samples with
  | [] => ret []
  | (timestamp, metricValue, rawAnomalyScore) :: rest =>
      likelihood <- process self timestamp metricValue rawAnomalyScore ;;
      likelihoods <- feed self rest ;;
      ret (likelihood :: likelihoods)
  end.

(** [isinstance(v, float)]: the [:rtype: float] of [process]. *)
Definition is_float (v : pyval) : bool :=
  match v with PyFloat _ => true | _ => false end.

Definition py_number (v : pyval) : option Q :=
  match v with
  | PyBool b => Some (if b then 1 else 0)%Q
  | PyInt z => Some (inject_Z z)
  | PyFloat q => Some q
  | _ => None
  end.

(** [v == 0]. *)
Definition py_eq_zero (v : pyval) : bool :=
  match py_number v with
  | Some q => Qeq_bool q 0
  | None => false
  end.

(** What [sys.stdin.readline()] returns next: the next line, or the empty
    string at end of file. *)
Definition readline (stdin : list string) : string :=
  match stdin with
  | [] => EmptyString
  | message :: _ => message
  end.

(** The exception an unbound [opfModelInputRecordFromSequence] raises. *)
Definition NameError_opf : exn :=
  Error "NameError"
    "global name 'opfModelInputRecordFromSequence' is not defined".

(** The world once [run] has logged its first line. *)
Definition logged (self : _ModelRunner) (w : World) : World :=
  with_log (log w ++ [(INFO, ("Processing model=" ++ _modelId self)%string)]) w.

(** The world once [main]'s handler has logged the failure. *)
Definition failed (w : World) : World :=
  with_log (log w ++ [(ERROR, "Engine failed")]) w.

(** The trace once the candidate is selected, the model created and both
    modes enabled. *)
Definition bootstrap_events (minVal maxVal minResolution modelConfig : pyval)
    (m : model) (inferenceArgs : pyval) : list event :=
  [ EvGetParams (PyList [PyInt 0]) minVal maxVal minResolution;
    EvCreate modelConfig;
    EvEnableLearning m;
    EvEnableInference m inferenceArgs ].

(** The records a loop writes for [items] when its body renders item [a]
    at index [k] as [render k a]. *)
Fixpoint records {A : Type} (render : nat -> A -> string) (k : nat)
    (items : list A) : list string :=
  match items with
  | [] => []
  | a :: rest => render k a :: records render (S k) rest
  end.

(** The line [_emitOutputMessage] writes for row [rowIndex]. *)
Definition output_record (ext : Externals) (rowIndex : nat)
    (anomalyLikelihood : pyval) : string :=
  (json_dumps ext (PyList [PyInt (Z.of_nat rowIndex); anomalyLikelihood])
   ++ newline)%string.

(** A computation that leaves stdout, stderr, the log and the channels'
    faults as they were: all it may do to the world is call collaborators. *)
Definition quiet {A : Type} (m : M A) : Prop :=
  forall w,
    stdout (snd (m w)) = stdout w
    /\ stderr (snd (m w)) = stderr w
    /\ log (snd (m w)) = log w
    /\ stdout_fault (snd (m w)) = stdout_fault w
    /\ stderr_fault (snd (m w)) = stderr_fault w.

(** A command-line option that is absent or given as the empty string. *)
Definition missing (option_value : option string) : Prop :=
  option_value = None \/ option_value = Some EmptyString.

(** ** A concrete environment *)

Module Demo.

Definition dq : string := String (Ascii.ascii_of_nat 34) EmptyString.

Definition key (k : string) : string := (dq ++ k ++ dq)%string.

(** [{"min": 0, "max": 100, "minResolution": 1}] *)
Definition stats_text_0_100_1 : string :=
  ("{" ++ key "min" ++ ": 0, " ++ key "max" ++ ": 100, "
   ++ key "minResolution" ++ ": 1}")%string.

Definition stats_0_100_1 : pyval :=
  PyDict [("min", PyInt 0); ("max", PyInt 100); ("minResolution", PyInt 1)].

(** [{"min": 5, "max": 1}] *)
Definition stats_text_5_1 : string :=
  ("{" ++ key "min" ++ ": 5, " ++ key "max" ++ ": 1}")%string.

Definition stats_5_1 : pyval := PyDict [("min", PyInt 5); ("max", PyInt 1)].

Definition line_1000 : string := ("[1000, 5.0]" ++ newline)%string.
Definition line_1060 : string := ("[1060, 5.1]" ++ newline)%string.
Definition line_1120 : string := ("[1120, 5.2]" ++ newline)%string.

Definition json_table : list (string * pyval) :=
  [ (stats_text_0_100_1, stats_0_100_1);
    (stats_text_5_1, stats_5_1);
    (line_1000, PyList [PyInt 1000; PyFloat 5]);
    (line_1060, PyList [PyInt 1060; PyFloat (51 # 10)]);
    (line_1120, PyList [PyInt 1120; PyFloat (52 # 10)]) ].

Definition loads (s : string) : result pyval :=
  match assoc s json_table with
  | Some v => Ok v
  | None => Raise (Error "ValueError" "No JSON object could be decoded")
  end.

Definition digit (n : nat) : string :=
  String (Ascii.ascii_of_nat (48 + n)) EmptyString.

Fixpoint decimal (fuel n : nat) : string :=
  match fuel with
  | O => digit n
  | S fuel' =>
      if Nat.ltb n 10 then digit n
      else (decimal fuel' (n / 10) ++ digit (n mod 10))%string
  end.

Definition int_text (z : Z) : string :=
  let n := Z.abs_nat z in
  ((if Z.ltb z 0 then "-" else "") ++ decimal n n)%string.

(** A serializer for the values the module hands to [json.dumps]: [None],
    booleans, integers, strings, lists and dicts of them. *)
Fixpoint dumps (v : pyval) : string :=
  let fix items (l : list pyval) : string :=
    match l with
    | [] => EmptyString
    | [x] => dumps x
    | x :: rest => (dumps x ++ ", " ++ items rest)%string
    end in
  let fix members (d : list (string * pyval)) : string :=
    match d with
    | [] => EmptyString
    | [(k, x)] => (key k ++ ": " ++ dumps x)%string
    | (k, x) :: rest => (key k ++ ": " ++ dumps x ++ ", " ++ members rest)%string
    end in
  match v with
  | PyNone => "null"
  | PyBool true => "true"
  | PyBool false => "false"
  | PyInt z => int_text z
  | PyFloat q | PyDatetime q =>
      (int_text (Qnum q) ++ "/" ++ int_text (Zpos (Qden q)))%string
  | PyStr s => key s
  | PyList l | PyTuple l => ("[" ++ items l ++ "]")%string
  | PyDict d => ("{" ++ members d ++ "}")%string
  end.

Definition fromtimestamp (v : pyval) : result pyval :=
  match py_number v with
  | Some q => Ok (PyDatetime q)
  | None => Raise (Error "TypeError" "a float is required")
  end.

(** One candidate, whatever the bounds. *)
Definition one_candidate (metricData minVal maxVal minResolution : pyval)
    : result pyval :=
  Ok (PyList
        [ PyDict [ ("modelConfig",
                    PyDict [("minVal", minVal); ("maxVal", maxVal);
                            ("resolution", minResolution)]);
                   ("inferenceArgs",
                    PyDict [("predictedField", PyStr "c1")]) ] ]).

Definition no_candidate (metricData minVal maxVal minResolution : pyval)
    : result pyval :=
  Ok (PyList []).

Definition str_of (e : exn) : string :=
  match e with
  | Error _ msg => msg
  | SystemExit code => int_text code
  | KeyboardInterrupt => EmptyString
  end.

Definition repr_of (e : exn) : string :=
  match e with
  | Error cls msg => (cls ++ "(" ++ msg ++ ",)")%string
  | SystemExit code => ("SystemExit(" ++ int_text code ++ ",)")%string
  | KeyboardInterrupt => "KeyboardInterrupt()"
  end.

(** The exception classes of validictory that derive from its
    [ValidationError]. *)
Definition subclass (cls base : string) : bool :=
  String.eqb base "ValidationError"
  && existsb (String.eqb cls)
       [ "FieldValidationError"; "RequiredFieldValidationError";
         "DependencyValidationError"; "MultipleValidationError" ].

Definition externals (stats_text : string)
    (select : pyval -> pyval -> pyval -> pyval -> result pyval)
    : Externals :=
  {| parse_args := ret (Some "model-1", Some stats_text, []);
     usage := "Usage: engine [options]";
     json_loads := loads;
     json_dumps := dumps;
     validate_stats := fun _ => Ok tt;
     utcfromtimestamp := fromtimestamp;
     getScalarMetricWithTimeOfDayParams := select;
     ModelFactory_create := fun _ => Ok 1%nat;
     enableLearning := fun _ => Ok tt;
     enableInference := fun _ _ => Ok tt;
     model_run := fun _ _ _ => Ok (PyFloat 0);
     call_global := fun _ _ => Ok PyNone;
     py_str := str_of;
     py_repr := repr_of;
     issubclass := subclass |}.

Definition ext : Externals := externals stats_text_0_100_1 one_candidate.

Definition world0 : World := mkWorld [] [] [] [] None None.


Definition runner : _ModelRunner := mk_ModelRunner "model-1" None new_Anomalizer.

(** Variants of an environment: another command line, another schema
    check, another model factory, another [enableLearning]. *)
Definition with_parse_args
    (parsed : option string * option string * list string) (e : Externals)
    : Externals :=
  mkExternals (ret parsed) (usage e) (json_loads e) (json_dumps e)
    (validate_stats e) (utcfromtimestamp e)
    (getScalarMetricWithTimeOfDayParams e) (ModelFactory_create e)
    (enableLearning e) (enableInference e) (model_run e) (call_global e)
    (py_str e) (py_repr e) (issubclass e).

Definition with_loads (decode : string -> result pyval) (e : Externals)
    : Externals :=
  mkExternals (parse_args e) (usage e) decode (json_dumps e)
    (validate_stats e) (utcfromtimestamp e)
    (getScalarMetricWithTimeOfDayParams e) (ModelFactory_create e)
    (enableLearning e) (enableInference e) (model_run e) (call_global e)
    (py_str e) (py_repr e) (issubclass e).

Definition with_validate (check : pyval -> result unit) (e : Externals)
    : Externals :=
  mkExternals (parse_args e) (usage e) (json_loads e) (json_dumps e)
    check (utcfromtimestamp e)
    (getScalarMetricWithTimeOfDayParams e) (ModelFactory_create e)
    (enableLearning e) (enableInference e) (model_run e) (call_global e)
    (py_str e) (py_repr e) (issubclass e).

Definition with_create (create : pyval -> result model) (e : Externals)
    : Externals :=
  mkExternals (parse_args e) (usage e) (json_loads e) (json_dumps e)
    (validate_stats e) (utcfromtimestamp e)
    (getScalarMetricWithTimeOfDayParams e) create
    (enableLearning e) (enableInference e) (model_run e) (call_global e)
    (py_str e) (py_repr e) (issubclass e).

(** One candidate that lacks its [inferenceArgs] entry. *)
Definition candidate_without_inferenceArgs
    (metricData minVal maxVal minResolution : pyval) : result pyval :=
  Ok (PyList [ PyDict [ ("modelConfig", PyDict [("minVal", minVal)]) ] ]).

Definition stats_without_min : pyval := PyDict [("max", PyInt 100)].

Definition stats_without_max : pyval := PyDict [("min", PyInt 0)].

Definition world_stdout_closed : World :=
  mkWorld [] [] [] [] (Some (Error "IOError" "[Errno 32] Broken pipe")) None.

Definition world_stderr_interrupted : World :=
  mkWorld [] [] [] [] None (Some KeyboardInterrupt).

Definition rows3 : list (pyval * pyval) :=
  [ (PyDatetime (inject_Z 1000), PyFloat 5);
    (PyDatetime (inject_Z 1060), PyFloat (51 # 10));
    (PyDatetime (inject_Z 1120), PyFloat (52 # 10)) ].

End Demo.

(** * Properties *)

(** ** The monad and the loop *)

Lemma bind_Ok_inv {A B : Type} (m : M A) (k : A -> M B) w b w' :
  bind m k w = (Ok b, w') ->
  exists a w1, m w = (Ok a, w1) /\ k a w1 = (Ok b, w').
Proof.
  unfold bind. destruct (m w) as [[a | e] w1]; intros H.
  - exists a, w1. split; [reflexivity | exact H].
  - discriminate H.
Qed.

Ltac bind_steps H :=
  repeat (apply bind_Ok_inv in H;
          let a := fresh "a" in
          let w1 := fresh "w" in
          let Hm := fresh "Hstep" in
          destruct H as (a & w1 & Hm & H)).

Lemma bind_Raise {A B : Type} (m : M A) (k : A -> M B) w e w' :
  m w = (Raise e, w') -> bind m k w = (Raise e, w').
Proof. unfold bind. intros ->. reflexivity. Qed.

Lemma bind_Ok {A B : Type} (m : M A) (k : A -> M B) w a w' :
  m w = (Ok a, w') -> bind m k w = k a w'.
Proof. unfold bind. intros ->. reflexivity. Qed.

(** At the end of the generator the loop returns, whatever its index and
    its body. *)
Lemma for_enumerate_nil {A : Type} k (body : nat -> A -> M unit) w :
  for_enumerate k [] body w = (Ok tt, w).
Proof. reflexivity. Qed.

(** A generator never yields more items than lines were read. *)
Lemma readInputMessages_length ext stdin :
  List.length (_readInputMessages ext stdin) <= List.length stdin.
Proof.
  induction stdin as [| message rest IH]; simpl.
  - lia.
  - destruct (truthy message); simpl; [| lia].
    destruct (parse_message ext message); simpl; lia.
Qed.

Lemma readInputMessages_eof ext stdin :
  readline stdin = EmptyString -> _readInputMessages ext stdin = [].
Proof.
  destruct stdin as [| message rest]; simpl; intros H.
  - reflexivity.
  - subst message. reflexivity.
Qed.

Section LoopSkeleton.

(** With a body that computes a likelihood and writes one record, the loop
    writes one record per item, numbered from its start index, in order. *)
Variables (A : Type) (render : nat -> A -> string).
Variable body : nat -> A -> M unit.
Hypothesis body_emits :
  forall k a w, body k a w = (Ok tt, with_stdout (stdout w ++ [render k a]) w).

Lemma for_enumerate_emits_in_order items : forall k w,
  for_enumerate k (map Ok items) body w
  = (Ok tt, with_stdout (stdout w ++ records render k items) w).
Proof.
  induction items as [| a rest IH]; intros k w; simpl.
  - rewrite app_nil_r. destruct w; reflexivity.
  - unfold bind. rewrite body_emits, IH. simpl.
    rewrite <- app_assoc. reflexivity.
Qed.

End LoopSkeleton.

(** ** [_computeAnomalyLikelihood] and [run] *)

Lemma computeAnomalyLikelihood_unbound ext self inputRow w :
  _computeAnomalyLikelihood ext self inputRow w = (Raise NameError_opf, w).
Proof. reflexivity. Qed.

Lemma run_cases ext self stdin w :
  run ext self stdin w =
  match _readInputMessages ext stdin with
  | [] => (Ok tt, logged self w)
  | Raise e :: _ => (Raise e, logged self w)
  | Ok _ :: _ => (Raise NameError_opf, logged self w)
  end.
Proof.
  unfold run, bind, g_log.
  destruct (_readInputMessages ext stdin) as [| [inputRow | e] rest];
    reflexivity.
Qed.

Lemma run_never_writes ext self stdin w :
  stdout (snd (run ext self stdin w)) = stdout w
  /\ stderr (snd (run ext self stdin w)) = stderr w.
Proof.
  rewrite run_cases.
  destruct (_readInputMessages ext stdin) as [| [inputRow | e] rest];
    split; reflexivity.
Qed.

Lemma readInputMessages_cons ext message rest :
  truthy message = true ->
  _readInputMessages ext (message :: rest) =
  match parse_message ext message with
  | Ok inputRow => Ok inputRow :: _readInputMessages ext rest
  | Raise e => [Raise e]
  end.
Proof. simpl. intros ->. reflexivity. Qed.

(** C9: for every input row [_computeAnomalyLikelihood] raises NameError,
    because [opfModelInputRecordFromSequence] is bound neither in the module
    nor among the builtins, before any raw score is produced and leaving
    the world untouched; so on any non-empty input stream [run] raises on
    the first sample (that NameError when the sample is well-formed) and
    writes no output record. *)
Theorem computeAnomalyLikelihood_NameError_no_output :
  forall ext self message rest w,
    truthy message = true ->
    bound "opfModelInputRecordFromSequence" = false
    /\ (forall inputRow w',
          _computeAnomalyLikelihood ext self inputRow w'
          = (Raise NameError_opf, w'))
    /\ (exists e,
          fst (run ext self (message :: rest) w) = Raise e
          /\ stdout (snd (run ext self (message :: rest) w)) = stdout w
          /\ trace (snd (run ext self (message :: rest) w)) = trace w
          /\ (forall inputRow,
                parse_message ext message = Ok inputRow -> e = NameError_opf)).
Proof.
  intros ext self message rest w Hmsg.
  split; [reflexivity |].
  split; [intros; apply computeAnomalyLikelihood_unbound |].
  rewrite run_cases, (readInputMessages_cons ext message rest Hmsg).
  destruct (parse_message ext message) as [inputRow | e].
  - exists NameError_opf. repeat split; reflexivity.
  - exists e. repeat split; try reflexivity. intros inputRow H. discriminate H.
Qed.

Lemma computeAnomalyLikelihood_NameError_no_output_witness :
  truthy Demo.line_1000 = true
  /\ exists e,
       fst (run Demo.ext Demo.runner [Demo.line_1000; Demo.line_1060]
              Demo.world0) = Raise e
       /\ stdout (snd (run Demo.ext Demo.runner
                         [Demo.line_1000; Demo.line_1060] Demo.world0)) = [].
Proof.
  split; [reflexivity |].
  destruct (computeAnomalyLikelihood_NameError_no_output
              Demo.ext Demo.runner Demo.line_1000 [Demo.line_1060]
              Demo.world0 eq_refl)
    as (_ & _ & e & He & Hout & _).
  exists e. split; [exact He | exact Hout].
Defined.

(** C1 (the code departs from it): on the three well-formed samples
    [[1000, 5.0]], [[1060, 5.1]], [[1120, 5.2]] the run loop raises the
    NameError on the first one and stdout stays empty, where three records
    numbered 0, 1, 2 are due. *)
Theorem run_three_samples_emits_no_record :
  map (parse_message Demo.ext)
      [Demo.line_1000; Demo.line_1060; Demo.line_1120]
  = [ Ok (PyDatetime (inject_Z 1000), PyFloat 5);
      Ok (PyDatetime (inject_Z 1060), PyFloat (51 # 10));
      Ok (PyDatetime (inject_Z 1120), PyFloat (52 # 10)) ]
  /\ fst (run Demo.ext Demo.runner
            [Demo.line_1000; Demo.line_1060; Demo.line_1120] Demo.world0)
     = Raise NameError_opf
  /\ stdout (snd (run Demo.ext Demo.runner
                    [Demo.line_1000; Demo.line_1060; Demo.line_1120]
                    Demo.world0)) = []
  /\ List.length (stdout (snd (run Demo.ext Demo.runner
                    [Demo.line_1000; Demo.line_1060; Demo.line_1120]
                    Demo.world0))) <> 3.
Proof.
  repeat split; try reflexivity.
  vm_compute. discriminate.
Qed.

(** C7: when the next read of the input yields no more data, the generator
    stops without yielding anything, the [for] loop returns normally from
    any index and any body with the world as it was, and [run] returns
    normally having written nothing and called no collaborator; the
    generator never yields more items than lines were read. *)
Theorem run_ends_at_end_of_stream :
  forall ext self stdin w,
    readline stdin = EmptyString ->
    _readInputMessages ext stdin = []
    /\ (forall k body w',
          for_enumerate k (_readInputMessages ext stdin) body w' = (Ok tt, w'))
    /\ run ext self stdin w = (Ok tt, logged self w)
    /\ stdout (logged self w) = stdout w
    /\ stderr (logged self w) = stderr w
    /\ trace (logged self w) = trace w
    /\ (forall lines,
          List.length (_readInputMessages ext lines) <= List.length lines).
Proof.
  intros ext self stdin w Heof.
  pose proof (readInputMessages_eof ext stdin Heof) as Hgen.
  split; [exact Hgen |].
  split; [intros k body w'; rewrite Hgen; apply for_enumerate_nil |].
  split; [rewrite run_cases, Hgen; reflexivity |].
  repeat split; try reflexivity.
  intros lines. apply readInputMessages_length.
Qed.

Lemma run_ends_at_end_of_stream_witness :
  readline [] = EmptyString
  /\ run Demo.ext Demo.runner [] Demo.world0
     = (Ok tt, logged Demo.runner Demo.world0).
Proof.
  split; [reflexivity |].
  apply (run_ends_at_end_of_stream Demo.ext Demo.runner [] Demo.world0 eq_refl).
Defined.

(** ** [_createModel] and [__init__] *)

Lemma createModel_Ok_None ext theStats w r w' :
  _createModel ext theStats w = (Ok r, w') -> r = None.
Proof.
  unfold _createModel. intros H. bind_steps H.
  unfold ret in H. congruence.
Qed.

Lemma ModelRunner_init_of_createModel ext theModelId theStats w r w' :
  _createModel ext theStats w = (Ok r, w') ->
  _ModelRunner_init ext theModelId theStats w
  = (Ok (mk_ModelRunner theModelId r new_Anomalizer), w').
Proof. unfold _ModelRunner_init, bind. intros ->. reflexivity. Qed.

Lemma ModelRunner_init_raises ext theModelId theStats w e w' :
  _createModel ext theStats w = (Raise e, w') ->
  _ModelRunner_init ext theModelId theStats w = (Raise e, w').
Proof. unfold _ModelRunner_init. apply bind_Raise. Qed.

Lemma createModel_first_candidate ext theStats w
    minVal maxVal minResolution swarmParams others modelConfig m inferenceArgs :
  py_getitem theStats "min" = Ok minVal ->
  py_getitem theStats "max" = Ok maxVal ->
  py_get theStats "minResolution" = Ok minResolution ->
  getScalarMetricWithTimeOfDayParams ext (PyList [PyInt 0])
    minVal maxVal minResolution = Ok (PyList (swarmParams :: others)) ->
  py_getitem swarmParams "modelConfig" = Ok modelConfig ->
  ModelFactory_create ext modelConfig = Ok m ->
  enableLearning ext m = Ok tt ->
  py_getitem swarmParams "inferenceArgs" = Ok inferenceArgs ->
  enableInference ext m inferenceArgs = Ok tt ->
  _createModel ext theStats w
  = (Ok None,
     with_trace (trace w ++ bootstrap_events minVal maxVal minResolution
                              modelConfig m inferenceArgs) w).
Proof.
  intros Hmin Hmax Hres Hsel Hcfg Hnew Hlearn Hargs Hinfer.
  unfold _createModel, bind, lift, call, ret.
  rewrite Hmin, Hmax, Hres, Hsel. simpl.
  rewrite Hcfg, Hnew, Hlearn, Hargs, Hinfer.
  unfold with_trace, bootstrap_events. simpl.
  rewrite <- !app_assoc. reflexivity.
Qed.

Lemma createModel_no_candidate ext theStats w minVal maxVal minResolution :
  py_getitem theStats "min" = Ok minVal ->
  py_getitem theStats "max" = Ok maxVal ->
  py_get theStats "minResolution" = Ok minResolution ->
  getScalarMetricWithTimeOfDayParams ext (PyList [PyInt 0])
    minVal maxVal minResolution = Ok (PyList []) ->
  _createModel ext theStats w
  = (Raise (Error "IndexError" "list index out of range"),
     with_trace
       (trace w ++ [EvGetParams (PyList [PyInt 0]) minVal maxVal minResolution])
       w).
Proof.
  intros Hmin Hmax Hres Hsel.
  unfold _createModel, bind, lift, call.
  rewrite Hmin, Hmax, Hres, Hsel. reflexivity.
Qed.

(** C10: whenever [_createModel] returns, it returns [None] (its body has
    no [return]), so the runner that [__init__] builds has [_model] set to
    [None]. *)
Theorem createModel_returns_None :
  forall ext theModelId theStats w r w',
    _createModel ext theStats w = (Ok r, w') ->
    r = None
    /\ _ModelRunner_init ext theModelId theStats w
       = (Ok (mk_ModelRunner theModelId None new_Anomalizer), w')
    /\ (forall self w'',
          _ModelRunner_init ext theModelId theStats w = (Ok self, w'') ->
          _model self = None).
Proof.
  intros ext theModelId theStats w r w' H.
  pose proof (createModel_Ok_None _ _ _ _ _ H) as ->.
  pose proof (ModelRunner_init_of_createModel ext theModelId _ _ _ _ H) as Hi.
  split; [reflexivity |]. split; [exact Hi |].
  intros self w'' Hs. rewrite Hi in Hs. inversion Hs. reflexivity.
Qed.

Lemma createModel_returns_None_witness :
  _createModel Demo.ext Demo.stats_0_100_1 Demo.world0
  = (Ok None,
     with_trace
       (bootstrap_events (PyInt 0) (PyInt 100) (PyInt 1)
          (PyDict [("minVal", PyInt 0); ("maxVal", PyInt 100);
                   ("resolution", PyInt 1)])
          1 (PyDict [("predictedField", PyStr "c1")]))
       Demo.world0)
  /\ _ModelRunner_init Demo.ext "model-1" Demo.stats_0_100_1 Demo.world0
     = (Ok (mk_ModelRunner "model-1" None new_Anomalizer),
        with_trace
          (bootstrap_events (PyInt 0) (PyInt 100) (PyInt 1)
             (PyDict [("minVal", PyInt 0); ("maxVal", PyInt 100);
                      ("resolution", PyInt 1)])
             1 (PyDict [("predictedField", PyStr "c1")]))
          Demo.world0).
Proof.
  split; [reflexivity |].
  apply (createModel_returns_None Demo.ext "model-1" Demo.stats_0_100_1
           Demo.world0 None _ eq_refl).
Defined.

(** C2 (the code departs from it): on [{min: 0, max: 100, minResolution: 1}]
    the bootstrap selects the first candidate, creates the model from its
    configuration and enables learning and inference, but hands [None] back:
    the runner's [_model] is [None], not the model created. *)
Theorem createModel_valid_stats_hands_back_None :
  _createModel Demo.ext Demo.stats_0_100_1 Demo.world0
  = (Ok None,
     with_trace
       [ EvGetParams (PyList [PyInt 0]) (PyInt 0) (PyInt 100) (PyInt 1);
         EvCreate (PyDict [("minVal", PyInt 0); ("maxVal", PyInt 100);
                           ("resolution", PyInt 1)]);
         EvEnableLearning 1;
         EvEnableInference 1 (PyDict [("predictedField", PyStr "c1")]) ]
       Demo.world0)
  /\ ModelFactory_create Demo.ext
       (PyDict [("minVal", PyInt 0); ("maxVal", PyInt 100);
                ("resolution", PyInt 1)]) = Ok 1
  /\ fst (_ModelRunner_init Demo.ext "model-1" Demo.stats_0_100_1 Demo.world0)
     = Ok (mk_ModelRunner "model-1" None new_Anomalizer)
  /\ fst (_ModelRunner_init Demo.ext "model-1" Demo.stats_0_100_1 Demo.world0)
     <> Ok (mk_ModelRunner "model-1" (Some 1) new_Anomalizer).
Proof.
  repeat split; try reflexivity.
  vm_compute. discriminate.
Qed.

(** C4 (as stated it fails): with [{min: 5, max: 1}] and a selection routine
    that returns a candidate the bootstrap returns normally, and with no
    candidate it raises IndexError; no ConfigurationError either way. *)
Lemma createModel_min_gt_max_no_ConfigurationError :
  py_getitem Demo.stats_5_1 "min" = Ok (PyInt 5)
  /\ py_getitem Demo.stats_5_1 "max" = Ok (PyInt 1)
  /\ (5 > 1)%Z
  /\ fst (_createModel (Demo.externals Demo.stats_text_5_1 Demo.one_candidate)
            Demo.stats_5_1 Demo.world0) = Ok None
  /\ ~ (exists e,
          fst (_createModel
                 (Demo.externals Demo.stats_text_5_1 Demo.one_candidate)
                 Demo.stats_5_1 Demo.world0) = Raise e)
  /\ fst (_createModel
            (Demo.externals Demo.stats_text_0_100_1 Demo.no_candidate)
            Demo.stats_0_100_1 Demo.world0)
     = Raise (Error "IndexError" "list index out of range")
  /\ ~ (exists msg,
          fst (_createModel
                 (Demo.externals Demo.stats_text_0_100_1 Demo.no_candidate)
                 Demo.stats_0_100_1 Demo.world0)
          = Raise (Error "ConfigurationError" msg)).
Proof.
  repeat split; try reflexivity.
  - intros [e H]. vm_compute in H. discriminate H.
  - intros [msg H]. vm_compute in H. discriminate H.
Qed.

(** C4, amended: the bootstrap does not compare min and max; it hands
    [stats["min"]], [stats["max"]] and [stats.get("minResolution")] to the
    selection routine as they are.  If the routine yields no candidate the
    bootstrap raises IndexError, and if the routine raises, that exception
    propagates: in both cases no model has been created, and constructing
    the runner fails the same way whatever the input stream holds, with
    nothing written to stdout.  If the routine yields a candidate with its
    two entries and the model accepts the calls, the bootstrap returns
    normally, whatever the order of min and max. *)
Theorem createModel_fails_only_through_selection :
  forall ext theModelId theStats minVal maxVal minResolution stdin w,
    py_getitem theStats "min" = Ok minVal ->
    py_getitem theStats "max" = Ok maxVal ->
    py_get theStats "minResolution" = Ok minResolution ->
    let selected :=
      getScalarMetricWithTimeOfDayParams ext (PyList [PyInt 0])
        minVal maxVal minResolution in
    let w1 :=
      with_trace
        (trace w
         ++ [EvGetParams (PyList [PyInt 0]) minVal maxVal minResolution]) w in
    (forall e,
       selected = Ok (PyList [])
       /\ e = Error "IndexError" "list index out of range"
       \/ selected = Raise e ->
       _createModel ext theStats w = (Raise e, w1)
       /\ construct_and_run ext theModelId theStats stdin w = (Raise e, w1)
       /\ stdout w1 = stdout w)
    /\ (forall swarmParams others modelConfig m inferenceArgs,
          selected = Ok (PyList (swarmParams :: others)) ->
          py_getitem swarmParams "modelConfig" = Ok modelConfig ->
          ModelFactory_create ext modelConfig = Ok m ->
          enableLearning ext m = Ok tt ->
          py_getitem swarmParams "inferenceArgs" = Ok inferenceArgs ->
          enableInference ext m inferenceArgs = Ok tt ->
          _createModel ext theStats w
          = (Ok None,
             with_trace
               (trace w ++ bootstrap_events minVal maxVal minResolution
                             modelConfig m inferenceArgs) w)).
Proof.
  intros ext theModelId theStats minVal maxVal minResolution stdin w
         Hmin Hmax Hres selected w1.
  split.
  - intros e Hsel.
    assert (Hc : _createModel ext theStats w = (Raise e, w1)).
    { destruct Hsel as [[Hsel ->] | Hsel].
      - apply createModel_no_candidate; assumption.
      - unfold _createModel, bind, lift, call.
        rewrite Hmin, Hmax, Hres. fold selected. rewrite Hsel. reflexivity. }
    split; [exact Hc |]. split; [| reflexivity].
    unfold construct_and_run. apply bind_Raise.
    apply ModelRunner_init_raises. exact Hc.
  - intros swarmParams others modelConfig m inferenceArgs
           Hsel Hcfg Hnew Hlearn Hargs Hinfer.
    eapply createModel_first_candidate; eassumption.
Qed.

Lemma createModel_fails_only_through_selection_witness :
  py_getitem Demo.stats_5_1 "min" = Ok (PyInt 5)
  /\ py_getitem Demo.stats_5_1 "max" = Ok (PyInt 1)
  /\ py_get Demo.stats_5_1 "minResolution" = Ok PyNone
  /\ construct_and_run
       (Demo.externals Demo.stats_text_5_1 Demo.no_candidate)
       "model-1" Demo.stats_5_1 [Demo.line_1000] Demo.world0
     = (Raise (Error "IndexError" "list index out of range"),
        with_trace
          [EvGetParams (PyList [PyInt 0]) (PyInt 5) (PyInt 1) PyNone]
          Demo.world0).
Proof.
  split; [reflexivity |]. split; [reflexivity |]. split; [reflexivity |].
  apply (createModel_fails_only_through_selection
           (Demo.externals Demo.stats_text_5_1 Demo.no_candidate)
           "model-1" Demo.stats_5_1 (PyInt 5) (PyInt 1) PyNone
           [Demo.line_1000] Demo.world0 eq_refl eq_refl eq_refl).
  left. split; reflexivity.
Defined.

(** ** [main] *)

Lemma is_Exception_exit_status {A : Type} (ex : exn) :
  is_Exception ex = true -> exit_status (@Raise A ex) = 1%Z.
Proof. destruct ex; simpl; [discriminate | discriminate | reflexivity]. Qed.

(** What is not an [Exception] passes through [main] unreported. *)
Lemma main_lets_BaseException_through ext stdin w ex w1 :
  main_body ext stdin w = (Raise ex, w1) ->
  is_Exception ex = false ->
  main ext stdin w = (Raise ex, w1).
Proof. unfold main. intros -> ->. reflexivity. Qed.

Lemma main_returns_with_body ext stdin w r w1 :
  main_body ext stdin w = (Ok r, w1) -> main ext stdin w = (Ok r, w1).
Proof. unfold main. intros ->. reflexivity. Qed.




(** ** [_Anomalizer.process] *)

Lemma feed_all_None self samples w :
  feed self samples w = (Ok (repeat PyNone (List.length samples)), w).
Proof.
  induction samples as [| [[timestamp metricValue] score] rest IH]; simpl.
  - reflexivity.
  - unfold bind, process, ret. simpl. rewrite IH. reflexivity.
Qed.

(** C3 (the code departs from it): whatever the raw scores, every call of
    [process] returns [None] and keeps no window; [None] is not a float,
    so it is not the neutral likelihood 0.0. *)
Theorem process_cold_start_returns_None :
  forall self samples w,
    feed self samples w = (Ok (repeat PyNone (List.length samples)), w)
    /\ is_float PyNone = false
    /\ PyNone <> PyFloat 0.
Proof.
  intros self samples w.
  split; [apply feed_all_None |]. split; [reflexivity | discriminate].
Qed.

(** C5 (the code departs from it): fed any number of identical raw scores,
    [process] never raises, but each likelihood it returns is [None],
    which does not equal 0. *)
Theorem process_constant_scores_returns_None :
  forall self timestamp metricValue c n w,
    feed self (repeat (timestamp, metricValue, PyFloat c) n) w
    = (Ok (repeat PyNone n), w)
    /\ py_eq_zero PyNone = false
    /\ py_eq_zero (PyFloat 0) = true.
Proof.
  intros self timestamp metricValue c n w.
  rewrite feed_all_None, repeat_length.
  repeat split.
Qed.


(** * Further properties of the module *)

(** ** [_parseArgs] *)

Lemma parser_error_open {A : Type} ext msg w :
  stderr_fault w = None ->
  @parser_error ext A msg w
  = (Raise (SystemExit 2),
     with_stderr (stderr w ++ [(usage ext ++ msg)%string]) w).
Proof.
  intros H. unfold parser_error, bind, stderr_write, raise.
  rewrite H. reflexivity.
Qed.

Lemma main_body_of_parseArgs_raise ext stdin w e w1 :
  _parseArgs ext w = (Raise e, w1) -> main_body ext stdin w = (Raise e, w1).
Proof. intros H. unfold main_body. apply bind_Raise. exact H. Qed.

Lemma main_of_SystemExit ext stdin w code w1 :
  main_body ext stdin w = (Raise (SystemExit code), w1) ->
  main ext stdin w = (Raise (SystemExit code), w1).
Proof. intros H. unfold main. rewrite H. reflexivity. Qed.

Lemma main_reports_open_stderr ext stdin w ex w1 :
  main_body ext stdin w = (Raise ex, w1) ->
  is_Exception ex = true ->
  stderr_fault w1 = None ->
  main ext stdin w
  = (Raise ex, with_stderr (stderr w1 ++ [errorMessage ext ex]) (failed w1)).
Proof.
  intros Hbody Hex Hfault. unfold main. rewrite Hbody, Hex.
  unfold stderr_write, g_log. simpl. rewrite Hfault. reflexivity.
Qed.

(** Once the command line has both options and no positional argument,
    what is left of [_parseArgs] is decoding and checking the stats. *)
Lemma parseArgs_with_both_options ext w c s c' s' w1 :
  parse_args ext w
  = (Ok (Some (String c s), Some (String c' s'), []), w1) ->
  _parseArgs ext w =
  match json_loads ext (String c' s') with
  | Raise e => (Raise e, w1)
  | Ok theStats =>
      match validate_stats ext theStats with
      | Ok _ => (Ok (mk_Options (String c s) theStats), w1)
      | Raise ex =>
          if isinstance ext ex "ValidationError"
          then parser_error ext
                 ("--stats option value failed schema validation: "
                  ++ py_repr ext ex)%string w1
          else (Raise ex, w1)
      end
  end.
Proof.
  intros Hparse. unfold _parseArgs, bind. rewrite Hparse.
  cbn [List.length Nat.eqb negb]. unfold lift, ret.
  destruct (json_loads ext (String c' s')) as [theStats | e]; [| reflexivity].
  destruct (validate_stats ext theStats) as [u | ex]; [reflexivity |].
  destruct (isinstance ext ex "ValidationError"); [| reflexivity].
  unfold parser_error, bind, stderr_write, raise.
  destruct (stderr_fault w1); reflexivity.
Qed.

(** X1: a command line with positional arguments makes [_parseArgs] write
    the usage error to stderr and raise [SystemExit(2)]; [main] does not
    catch it, so the process exits with status 2 and neither a log record
    nor an error object is produced. *)
Theorem parseArgs_rejects_positional_args :
  forall ext stdin w optModelId optStats positionalArgs w1,
    parse_args ext w = (Ok (optModelId, optStats, positionalArgs), w1) ->
    positionalArgs <> [] ->
    stderr_fault w1 = None ->
    let w2 :=
      with_stderr
        (stderr w1
         ++ [(usage ext ++ "Command accepts no positional args")%string]) w1 in
    _parseArgs ext w = (Raise (SystemExit 2), w2)
    /\ main ext stdin w = (Raise (SystemExit 2), w2)
    /\ exit_status (fst (main ext stdin w)) = 2%Z
    /\ log w2 = log w1.
Proof.
  intros ext stdin w optModelId optStats positionalArgs w1
         Hparse Hpos Hfault w2.
  assert (H : _parseArgs ext w = (Raise (SystemExit 2), w2)).
  { unfold _parseArgs, bind at 1. rewrite Hparse.
    destruct positionalArgs as [| arg args]; [contradiction |].
    cbn [List.length Nat.eqb negb].
    apply bind_Raise. apply parser_error_open. exact Hfault. }
  pose proof (main_of_SystemExit ext stdin w 2 w2
                (main_body_of_parseArgs_raise ext stdin w _ _ H)) as Hmain.
  split; [exact H |]. split; [exact Hmain |].
  rewrite Hmain. split; reflexivity.
Qed.

Lemma parseArgs_rejects_positional_args_witness :
  parse_args (Demo.with_parse_args (Some "model-1", None, ["extra"]) Demo.ext)
    Demo.world0
  = (Ok (Some "model-1", None, ["extra"]), Demo.world0)
  /\ ["extra"] <> []
  /\ exit_status
       (fst (main (Demo.with_parse_args (Some "model-1", None, ["extra"])
                     Demo.ext) [Demo.line_1000] Demo.world0)) = 2%Z.
Proof.
  assert (Hne : ["extra"] <> []) by discriminate.
  split; [reflexivity |]. split; [exact Hne |].
  apply (parseArgs_rejects_positional_args
           (Demo.with_parse_args (Some "model-1", None, ["extra"]) Demo.ext)
           [Demo.line_1000] Demo.world0 (Some "model-1") None ["extra"]
           Demo.world0 eq_refl Hne eq_refl).
Defined.

(** X2: without positional arguments, an absent or empty [--model] value
    ends [_parseArgs] with the usage error "Missing or empty --modelId
    option value" and [SystemExit(2)], whether or not [--stats] was given;
    the stats text is never decoded and [main] lets the exit through. *)
Theorem parseArgs_requires_model_id :
  forall ext stdin w optModelId optStats w1,
    parse_args ext w = (Ok (optModelId, optStats, []), w1) ->
    missing optModelId ->
    stderr_fault w1 = None ->
    let w2 :=
      with_stderr
        (stderr w1
         ++ [(usage ext ++ "Missing or empty --modelId option value")%string])
        w1 in
    _parseArgs ext w = (Raise (SystemExit 2), w2)
    /\ main ext stdin w = (Raise (SystemExit 2), w2)
    /\ exit_status (fst (main ext stdin w)) = 2%Z.
Proof.
  intros ext stdin w optModelId optStats w1 Hparse Hmiss Hfault w2.
  assert (H : _parseArgs ext w = (Raise (SystemExit 2), w2)).
  { unfold _parseArgs, bind at 1. rewrite Hparse.
    cbn [List.length Nat.eqb negb]. unfold bind at 1, ret at 1.
    apply bind_Raise.
    destruct Hmiss as [-> | ->]; apply parser_error_open; exact Hfault. }
  pose proof (main_of_SystemExit ext stdin w 2 w2
                (main_body_of_parseArgs_raise ext stdin w _ _ H)) as Hmain.
  split; [exact H |]. split; [exact Hmain |].
  rewrite Hmain. reflexivity.
Qed.

Lemma parseArgs_requires_model_id_witness :
  missing (Some EmptyString)
  /\ fst (_parseArgs (Demo.with_parse_args (Some EmptyString, None, [])
                        Demo.ext) Demo.world0) = Raise (SystemExit 2).
Proof.
  assert (Hm : missing (Some EmptyString)) by (right; reflexivity).
  split; [exact Hm |].
  destruct (parseArgs_requires_model_id
              (Demo.with_parse_args (Some EmptyString, None, []) Demo.ext)
              [] Demo.world0 (Some EmptyString) None Demo.world0
              eq_refl Hm eq_refl) as [H _].
  rewrite H. reflexivity.
Defined.

(** X3: with a model id and no positional argument, an absent or empty
    [--stats] value ends [_parseArgs] with the usage error "Missing or
    empty --stats option value" and [SystemExit(2)], which [main] lets
    through. *)
Theorem parseArgs_requires_stats :
  forall ext stdin w c s optStats w1,
    parse_args ext w = (Ok (Some (String c s), optStats, []), w1) ->
    missing optStats ->
    stderr_fault w1 = None ->
    let w2 :=
      with_stderr
        (stderr w1
         ++ [(usage ext ++ "Missing or empty --stats option value")%string])
        w1 in
    _parseArgs ext w = (Raise (SystemExit 2), w2)
    /\ main ext stdin w = (Raise (SystemExit 2), w2)
    /\ exit_status (fst (main ext stdin w)) = 2%Z.
Proof.
  intros ext stdin w c s optStats w1 Hparse Hmiss Hfault w2.
  assert (H : _parseArgs ext w = (Raise (SystemExit 2), w2)).
  { unfold _parseArgs, bind at 1. rewrite Hparse.
    cbn [List.length Nat.eqb negb]. unfold bind at 1, ret at 1.
    unfold bind at 1, ret at 1.
    apply bind_Raise.
    destruct Hmiss as [-> | ->]; apply parser_error_open; exact Hfault. }
  pose proof (main_of_SystemExit ext stdin w 2 w2
                (main_body_of_parseArgs_raise ext stdin w _ _ H)) as Hmain.
  split; [exact H |]. split; [exact Hmain |].
  rewrite Hmain. reflexivity.
Qed.

Lemma parseArgs_requires_stats_witness :
  missing None
  /\ fst (_parseArgs (Demo.with_parse_args (Some "model-1", None, [])
                        Demo.ext) Demo.world0) = Raise (SystemExit 2).
Proof.
  assert (Hm : missing None) by (left; reflexivity).
  split; [exact Hm |].
  destruct (parseArgs_requires_stats
              (Demo.with_parse_args (Some "model-1", None, []) Demo.ext)
              [] Demo.world0 _ _ None Demo.world0
              eq_refl Hm eq_refl) as [H _].
  rewrite H. reflexivity.
Defined.

(** X4: when the [--stats] text is not valid JSON, the decoder's exception
    leaves [_parseArgs] as it is, with nothing written to stderr by
    [_parseArgs]; being an [Exception], it is then reported by [main] as
    one error object and the process exits with status 1 (not with the
    usage status 2). *)
Theorem parseArgs_invalid_json_is_reported :
  forall ext stdin w c s c' s' w1 e,
    parse_args ext w
    = (Ok (Some (String c s), Some (String c' s'), []), w1) ->
    json_loads ext (String c' s') = Raise e ->
    _parseArgs ext w = (Raise e, w1)
    /\ (is_Exception e = true ->
        stderr_fault w1 = None ->
        main ext stdin w
        = (Raise e,
           with_stderr (stderr w1 ++ [errorMessage ext e]) (failed w1))
        /\ exit_status (fst (main ext stdin w)) = 1%Z).
Proof.
  intros ext stdin w c s c' s' w1 e Hparse Hjson.
  assert (H : _parseArgs ext w = (Raise e, w1)).
  { rewrite (parseArgs_with_both_options ext w c s c' s' w1 Hparse), Hjson.
    reflexivity. }
  split; [exact H |].
  intros Hex Hfault.
  pose proof (main_reports_open_stderr ext stdin w e w1
                (main_body_of_parseArgs_raise ext stdin w _ _ H) Hex Hfault)
    as Hmain.
  split; [exact Hmain |].
  rewrite Hmain. exact (is_Exception_exit_status (A := unit) e Hex).
Qed.

Lemma parseArgs_invalid_json_is_reported_witness :
  json_loads Demo.ext "not json"
  = Raise (Error "ValueError" "No JSON object could be decoded")
  /\ _parseArgs
       (Demo.with_parse_args (Some "model-1", Some "not json", []) Demo.ext)
       Demo.world0
     = (Raise (Error "ValueError" "No JSON object could be decoded"),
        Demo.world0).
Proof.
  split; [reflexivity |].
  apply (parseArgs_invalid_json_is_reported
           (Demo.with_parse_args (Some "model-1", Some "not json", [])
              Demo.ext)
           [] Demo.world0 _ _ _ _ Demo.world0 _ eq_refl eq_refl).
Defined.

(** X5: when the validator raises an instance of [ValidationError], of
    that class itself or of a subclass, [_parseArgs] turns it into a usage
    error: the message, with the exception's repr, goes to stderr and
    [SystemExit(2)] is raised, which [main] lets through, so no error
    object is written, nothing is logged and the exit status is 2. *)
Theorem parseArgs_schema_failure_is_usage_error :
  forall ext stdin w c s c' s' w1 theStats ex,
    parse_args ext w
    = (Ok (Some (String c s), Some (String c' s'), []), w1) ->
    json_loads ext (String c' s') = Ok theStats ->
    validate_stats ext theStats = Raise ex ->
    isinstance ext ex "ValidationError" = true ->
    stderr_fault w1 = None ->
    let w2 :=
      with_stderr
        (stderr w1
         ++ [(usage ext
              ++ "--stats option value failed schema validation: "
              ++ py_repr ext ex)%string]) w1 in
    _parseArgs ext w = (Raise (SystemExit 2), w2)
    /\ main ext stdin w = (Raise (SystemExit 2), w2)
    /\ exit_status (fst (main ext stdin w)) = 2%Z
    /\ log w2 = log w1.
Proof.
  intros ext stdin w c s c' s' w1 theStats ex
         Hparse Hjson Hval Hinst Hfault w2.
  assert (H : _parseArgs ext w = (Raise (SystemExit 2), w2)).
  { rewrite (parseArgs_with_both_options ext w c s c' s' w1 Hparse),
      Hjson, Hval, Hinst.
    apply parser_error_open. exact Hfault. }
  pose proof (main_of_SystemExit ext stdin w 2 w2
                (main_body_of_parseArgs_raise ext stdin w _ _ H)) as Hmain.
  split; [exact H |]. split; [exact Hmain |].
  rewrite Hmain. split; reflexivity.
Qed.

Lemma parseArgs_schema_failure_is_usage_error_witness :
  isinstance Demo.ext (Error "FieldValidationError" "min is required")
    "ValidationError" = true
  /\ isinstance Demo.ext (Error "ValidationError" "not an object")
       "ValidationError" = true
  /\ exit_status
       (fst (main
               (Demo.with_validate
                  (fun _ =>
                     Raise (Error "FieldValidationError" "min is required"))
                  Demo.ext)
               [Demo.line_1000] Demo.world0)) = 2%Z.
Proof.
  split; [reflexivity |]. split; [reflexivity |].
  apply (parseArgs_schema_failure_is_usage_error
           (Demo.with_validate
              (fun _ => Raise (Error "FieldValidationError" "min is required"))
              Demo.ext)
           [Demo.line_1000] Demo.world0 _ _ _ _ Demo.world0
           Demo.stats_0_100_1
           (Error "FieldValidationError" "min is required")
           eq_refl eq_refl eq_refl eq_refl eq_refl).
Defined.

(** X6: an exception of the validator that is not an instance of
    [ValidationError] (a [SchemaError] for a broken schema, say) is not
    turned into a usage error: it leaves [_parseArgs] unchanged and
    nothing is written to stderr there. *)
Theorem parseArgs_other_validator_failure_propagates :
  forall ext w c s c' s' w1 theStats ex,
    parse_args ext w
    = (Ok (Some (String c s), Some (String c' s'), []), w1) ->
    json_loads ext (String c' s') = Ok theStats ->
    validate_stats ext theStats = Raise ex ->
    isinstance ext ex "ValidationError" = false ->
    _parseArgs ext w = (Raise ex, w1).
Proof.
  intros ext w c s c' s' w1 theStats ex Hparse Hjson Hval Hother.
  rewrite (parseArgs_with_both_options ext w c s c' s' w1 Hparse),
    Hjson, Hval, Hother.
  reflexivity.
Qed.

Lemma parseArgs_other_validator_failure_propagates_witness :
  isinstance Demo.ext (Error "SchemaError" "bad schema") "ValidationError"
  = false
  /\ _parseArgs
       (Demo.with_validate
          (fun _ => Raise (Error "SchemaError" "bad schema")) Demo.ext)
       Demo.world0
     = (Raise (Error "SchemaError" "bad schema"), Demo.world0).
Proof.
  split; [reflexivity |].
  apply (parseArgs_other_validator_failure_propagates
           (Demo.with_validate
              (fun _ => Raise (Error "SchemaError" "bad schema")) Demo.ext)
           Demo.world0 _ _ _ _ Demo.world0 Demo.stats_0_100_1 _
           eq_refl eq_refl eq_refl eq_refl).
Defined.

(** X7: with both options non-empty, no positional argument, a stats text
    that decodes and a decoded value that passes validation, [_parseArgs]
    returns the model id as given and the decoded stats, writing nothing;
    [main]'s body then continues with exactly these two values. *)
Theorem parseArgs_returns_options :
  forall ext stdin w c s c' s' w1 theStats u,
    parse_args ext w
    = (Ok (Some (String c s), Some (String c' s'), []), w1) ->
    json_loads ext (String c' s') = Ok theStats ->
    validate_stats ext theStats = Ok u ->
    _parseArgs ext w = (Ok (mk_Options (String c s) theStats), w1)
    /\ main_body ext stdin w
       = construct_and_run ext (String c s) theStats stdin w1.
Proof.
  intros ext stdin w c s c' s' w1 theStats u Hparse Hjson Hval.
  assert (H : _parseArgs ext w = (Ok (mk_Options (String c s) theStats), w1)).
  { rewrite (parseArgs_with_both_options ext w c s c' s' w1 Hparse),
      Hjson, Hval. reflexivity. }
  split; [exact H |].
  unfold main_body. rewrite (bind_Ok _ _ _ _ _ H). reflexivity.
Qed.

Lemma parseArgs_returns_options_witness :
  _parseArgs Demo.ext Demo.world0
  = (Ok (mk_Options "model-1" Demo.stats_0_100_1), Demo.world0).
Proof.
  apply (parseArgs_returns_options Demo.ext [] Demo.world0 _ _ _ _
           Demo.world0 Demo.stats_0_100_1 tt eq_refl eq_refl eq_refl).
Defined.

(** ** [_readInputMessages] *)

Lemma readInputMessages_app ext lines rows tail :
  Forall2 (fun line row =>
             truthy line = true /\ parse_message ext line = Ok row)
          lines rows ->
  _readInputMessages ext (lines ++ tail)
  = map Ok rows ++ _readInputMessages ext tail.
Proof.
  induction 1 as [| line row lines rows [Hline Hrow] _ IH]; simpl.
  - reflexivity.
  - rewrite Hline, Hrow, IH. reflexivity.
Qed.

(** X8: when every line read parses, the generator yields one row per
    line, in the order read, and stops at the end of the input or at the
    first empty string [readline] returns, without reading further. *)
Theorem readInputMessages_yields_rows_in_order :
  forall ext lines rows,
    Forall2 (fun line row =>
               truthy line = true /\ parse_message ext line = Ok row)
            lines rows ->
    _readInputMessages ext lines = map Ok rows
    /\ (forall rest,
          _readInputMessages ext (lines ++ EmptyString :: rest) = map Ok rows)
    /\ List.length (_readInputMessages ext lines) = List.length lines.
Proof.
  intros ext lines rows H.
  pose proof (readInputMessages_app ext lines rows [] H) as Hnil.
  rewrite !app_nil_r in Hnil.
  split; [exact Hnil |]. split.
  - intros rest. rewrite (readInputMessages_app ext lines rows _ H).
    simpl. apply app_nil_r.
  - rewrite Hnil, length_map. symmetry. eapply Forall2_length. exact H.
Qed.

Lemma readInputMessages_yields_rows_in_order_witness :
  _readInputMessages Demo.ext
    [Demo.line_1000; Demo.line_1060; Demo.line_1120]
  = map Ok Demo.rows3.
Proof.
  apply (readInputMessages_yields_rows_in_order Demo.ext
           [Demo.line_1000; Demo.line_1060; Demo.line_1120] Demo.rows3).
  repeat constructor.
Defined.

(** X9: the generator ends at the first line that fails to parse: the rows
    of the lines before it are yielded, then the exception is raised, and
    the lines after it are never read. *)
Theorem readInputMessages_stops_at_malformed_line :
  forall ext lines rows bad rest e,
    Forall2 (fun line row =>
               truthy line = true /\ parse_message ext line = Ok row)
            lines rows ->
    truthy bad = true ->
    parse_message ext bad = Raise e ->
    _readInputMessages ext (lines ++ bad :: rest) = map Ok rows ++ [Raise e].
Proof.
  intros ext lines rows bad rest e H Hbad He.
  rewrite (readInputMessages_app ext lines rows _ H).
  simpl. rewrite Hbad, He. reflexivity.
Qed.

Lemma readInputMessages_stops_at_malformed_line_witness :
  truthy "oops" = true
  /\ parse_message Demo.ext "oops"
     = Raise (Error "ValueError" "No JSON object could be decoded")
  /\ _readInputMessages Demo.ext
       [Demo.line_1000; "oops"; Demo.line_1060]
     = [ Ok (PyDatetime (inject_Z 1000), PyFloat 5);
         Raise (Error "ValueError" "No JSON object could be decoded") ].
Proof.
  split; [reflexivity |]. split; [reflexivity |].
  apply (readInputMessages_stops_at_malformed_line Demo.ext
           [Demo.line_1000] [(PyDatetime (inject_Z 1000), PyFloat 5)]
           "oops" [Demo.line_1060]
           (Error "ValueError" "No JSON object could be decoded")).
  - repeat constructor.
  - reflexivity.
  - reflexivity.
Defined.

(** X10: a line that decodes to a two-element array is a row exactly when
    [utcfromtimestamp] accepts its first element: the row is the
    converted timestamp with the second element unchanged, and a refusal
    of the timestamp is the line's exception. *)
Theorem parse_message_two_element_array :
  forall ext message timestamp scalarValue,
    json_loads ext message = Ok (PyList [timestamp; scalarValue]) ->
    (forall t, utcfromtimestamp ext timestamp = Ok t ->
               parse_message ext message = Ok (t, scalarValue))
    /\ (forall e, utcfromtimestamp ext timestamp = Raise e ->
                  parse_message ext message = Raise e).
Proof.
  intros ext message timestamp scalarValue Hjson.
  unfold parse_message. rewrite Hjson. simpl.
  split; intros x ->; reflexivity.
Qed.

Lemma parse_message_two_element_array_witness :
  json_loads Demo.ext Demo.line_1060
  = Ok (PyList [PyInt 1060; PyFloat (51 # 10)])
  /\ parse_message Demo.ext Demo.line_1060
     = Ok (PyDatetime (inject_Z 1060), PyFloat (51 # 10)).
Proof.
  split; [reflexivity |].
  apply (parse_message_two_element_array Demo.ext Demo.line_1060
           (PyInt 1060) (PyFloat (51 # 10)) eq_refl).
  reflexivity.
Defined.

(** X11: a line that decodes to an array of any length other than two is
    refused with a ValueError by the unpacking into [timestamp,
    scalarValue], before any timestamp conversion. *)
Theorem parse_message_wrong_arity :
  forall ext message items,
    json_loads ext message = Ok (PyList items) ->
    List.length items <> 2 ->
    exists msg, parse_message ext message = Raise (Error "ValueError" msg).
Proof.
  intros ext message items Hjson Hlen.
  unfold parse_message. rewrite Hjson.
  destruct items as [| a [| b [| c items]]]; simpl in *.
  - eexists; reflexivity.
  - eexists; reflexivity.
  - contradiction Hlen; reflexivity.
  - eexists; reflexivity.
Qed.

Lemma parse_message_wrong_arity_witness :
  List.length [PyInt 1000] <> 2
  /\ exists msg,
       parse_message
         (Demo.with_loads (fun _ => Ok (PyList [PyInt 1000])) Demo.ext)
         "[1000]"
       = Raise (Error "ValueError" msg).
Proof.
  assert (Hlen : List.length [PyInt 1000] <> 2) by discriminate.
  split; [exact Hlen |].
  apply (parse_message_wrong_arity
           (Demo.with_loads (fun _ => Ok (PyList [PyInt 1000])) Demo.ext)
           "[1000]" [PyInt 1000] eq_refl Hlen).
Defined.

(** ** [_emitOutputMessage] *)

Lemma records_length {A : Type} (render : nat -> A -> string) items :
  forall k, List.length (records render k items) = List.length items.
Proof.
  induction items as [| a rest IH]; intros k; simpl.
  - reflexivity.
  - rewrite IH. reflexivity.
Qed.

Lemma record_serialisable (rowIndex : nat) (anomalyLikelihood : pyval) :
  json_serialisable (PyList [PyInt (Z.of_nat rowIndex); anomalyLikelihood])
  = json_serialisable anomalyLikelihood.
Proof. cbn. apply andb_true_r. Qed.

(** The object [main] renders for an exception holds two strings, so
    [json.dumps] always serialises it. *)
Lemma error_object_serialisable (errorText diagnosticInfo : string) :
  json_serialisable
    (PyDict [ ("errorText", PyStr errorText);
              ("diagnosticInfo", PyStr diagnosticInfo) ]) = true.
Proof. reflexivity. Qed.

Lemma emitOutputMessage_open ext rowIndex anomalyLikelihood w :
  json_serialisable anomalyLikelihood = true ->
  stdout_fault w = None ->
  _emitOutputMessage ext rowIndex anomalyLikelihood w
  = (Ok tt,
     with_stdout
       (stdout w ++ [output_record ext rowIndex anomalyLikelihood]) w).
Proof.
  intros Hser Hfault. unfold _emitOutputMessage.
  rewrite record_serialisable, Hser. unfold stdout_write.
  rewrite Hfault. reflexivity.
Qed.

(** X12: successive calls of [_emitOutputMessage] at the indices
    [enumerate] hands out, on likelihoods [json.dumps] can serialise and
    with stdout accepting writes, append exactly one line
    [json.dumps([rowIndex, likelihood])] plus a newline per call, numbered
    consecutively from the start index, in call order; nothing else of the
    world changes. *)
Theorem emitOutputMessage_appends_records_in_order :
  forall ext likelihoods k w,
    Forall (fun likelihood => json_serialisable likelihood = true)
           likelihoods ->
    stdout_fault w = None ->
    for_enumerate k (map Ok likelihoods) (_emitOutputMessage ext) w
    = (Ok tt,
       with_stdout
         (stdout w ++ records (output_record ext) k likelihoods) w)
    /\ List.length (records (output_record ext) k likelihoods)
       = List.length likelihoods.
Proof.
  intros ext likelihoods k w Hser Hfault.
  split; [| apply records_length].
  revert k w Hfault.
  induction Hser as [| likelihood rest Hl _ IH]; intros k w Hfault; simpl.
  - rewrite app_nil_r. destruct w; reflexivity.
  - unfold bind. rewrite (emitOutputMessage_open ext k likelihood w Hl Hfault).
    rewrite IH by exact Hfault.
    unfold with_stdout. simpl. rewrite <- app_assoc. reflexivity.
Qed.

Lemma emitOutputMessage_appends_records_in_order_witness :
  Forall (fun likelihood => json_serialisable likelihood = true)
         [PyNone; PyFloat (1 # 2); PyNone]
  /\ stdout (snd (for_enumerate 0 (map Ok [PyNone; PyFloat (1 # 2); PyNone])
                    (_emitOutputMessage Demo.ext) Demo.world0))
     = [ output_record Demo.ext 0 PyNone;
         output_record Demo.ext 1 (PyFloat (1 # 2));
         output_record Demo.ext 2 PyNone ].
Proof.
  assert (Hser : Forall (fun likelihood => json_serialisable likelihood = true)
                        [PyNone; PyFloat (1 # 2); PyNone])
    by (repeat constructor).
  split; [exact Hser |].
  destruct (emitOutputMessage_appends_records_in_order Demo.ext
              [PyNone; PyFloat (1 # 2); PyNone] 0 Demo.world0 Hser eq_refl)
    as [H _].
  rewrite H. reflexivity.
Defined.

(** X13: [_emitOutputMessage] fails without writing: a likelihood that
    [json.dumps] cannot serialise raises TypeError whether or not stdout
    accepts writes, because the message is built first, and on a
    serialisable likelihood a refused write raises the write's exception;
    in both cases the world is as it was. *)
Theorem emitOutputMessage_fails_before_writing :
  forall ext rowIndex anomalyLikelihood w,
    (json_serialisable anomalyLikelihood = false ->
     _emitOutputMessage ext rowIndex anomalyLikelihood w
     = (Raise (Error "TypeError" "is not JSON serializable"), w))
    /\ (forall e,
          json_serialisable anomalyLikelihood = true ->
          stdout_fault w = Some e ->
          _emitOutputMessage ext rowIndex anomalyLikelihood w = (Raise e, w)).
Proof.
  intros ext rowIndex anomalyLikelihood w. split.
  - intros Hser. unfold _emitOutputMessage.
    rewrite record_serialisable, Hser. reflexivity.
  - intros e Hser Hfault. unfold _emitOutputMessage.
    rewrite record_serialisable, Hser. unfold stdout_write.
    rewrite Hfault. reflexivity.
Qed.

Lemma emitOutputMessage_fails_before_writing_witness :
  json_serialisable (PyDatetime (inject_Z 1000)) = false
  /\ _emitOutputMessage Demo.ext 0 (PyDatetime (inject_Z 1000))
       Demo.world_stdout_closed
     = (Raise (Error "TypeError" "is not JSON serializable"),
        Demo.world_stdout_closed)
  /\ _emitOutputMessage Demo.ext 0 PyNone Demo.world_stdout_closed
     = (Raise (Error "IOError" "[Errno 32] Broken pipe"),
        Demo.world_stdout_closed).
Proof.
  split; [reflexivity |].
  destruct (emitOutputMessage_fails_before_writing Demo.ext 0
              (PyDatetime (inject_Z 1000)) Demo.world_stdout_closed)
    as [Htype _].
  destruct (emitOutputMessage_fails_before_writing Demo.ext 0
              PyNone Demo.world_stdout_closed) as [_ Hwrite].
  split; [exact (Htype eq_refl) | exact (Hwrite _ eq_refl eq_refl)].
Defined.

(** ** [run] *)

(** X14: whatever the input stream holds, [run] changes the world by its
    one log record "Processing model=<id>" and nothing else: it writes
    nothing to stdout or stderr and never calls the model. *)
Theorem run_only_logs :
  forall ext self stdin w,
    snd (run ext self stdin w) = logged self w
    /\ log (logged self w)
       = log w ++ [(INFO, ("Processing model=" ++ _modelId self)%string)]
    /\ stdout (logged self w) = stdout w
    /\ stderr (logged self w) = stderr w
    /\ trace (logged self w) = trace w.
Proof.
  intros ext self stdin w. rewrite run_cases.
  destruct (_readInputMessages ext stdin) as [| [inputRow | e] rest];
    repeat split.
Qed.

(** X15: when the first line read fails to parse, [run] raises the
    parser's exception, not the NameError: the generator fails before
    [_computeAnomalyLikelihood] is entered. *)
Theorem run_raises_parse_error_of_first_line :
  forall ext self message rest w e,
    truthy message = true ->
    parse_message ext message = Raise e ->
    run ext self (message :: rest) w = (Raise e, logged self w).
Proof.
  intros ext self message rest w e Hmsg Hparse.
  rewrite run_cases, (readInputMessages_cons ext message rest Hmsg), Hparse.
  reflexivity.
Qed.

Lemma run_raises_parse_error_of_first_line_witness :
  truthy "oops" = true
  /\ run Demo.ext Demo.runner ["oops"; Demo.line_1000] Demo.world0
     = (Raise (Error "ValueError" "No JSON object could be decoded"),
        logged Demo.runner Demo.world0).
Proof.
  split; [reflexivity |].
  apply (run_raises_parse_error_of_first_line Demo.ext Demo.runner "oops"
           [Demo.line_1000] Demo.world0 _ eq_refl eq_refl).
Defined.

(** ** [_createModel], further *)

Lemma quiet_ret {A : Type} (a : A) : quiet (ret a).
Proof. intros w. repeat split. Qed.

Lemma quiet_lift {A : Type} (r : result A) : quiet (lift r).
Proof. intros w. repeat split. Qed.

Lemma quiet_call {A : Type} (ev : event) (r : result A) : quiet (call ev r).
Proof. intros w. repeat split. Qed.

Lemma quiet_bind {A B : Type} (m : M A) (k : A -> M B) :
  quiet m -> (forall a, quiet (k a)) -> quiet (bind m k).
Proof.
  intros Hm Hk w. unfold bind.
  specialize (Hm w). destruct (m w) as [[a | e] w1]; simpl in Hm.
  - specialize (Hk a w1).
    destruct Hm as (H1 & H2 & H3 & H4 & H5).
    destruct Hk as (K1 & K2 & K3 & K4 & K5).
    repeat split; congruence.
  - exact Hm.
Qed.

(** X16: whatever the stats and whatever the collaborators answer,
    [_createModel] and [__init__] leave stdout, stderr and the log
    untouched: the bootstrap's only effect on the world is the calls it
    makes. *)
Theorem createModel_is_quiet :
  forall ext theModelId theStats,
    quiet (_createModel ext theStats)
    /\ quiet (_ModelRunner_init ext theModelId theStats).
Proof.
  intros ext theModelId theStats.
  assert (Hc : quiet (_createModel ext theStats)).
  { unfold _createModel.
    repeat first [ apply quiet_lift | apply quiet_call | apply quiet_ret
                 | apply quiet_bind | intro ]. }
  split; [exact Hc |].
  unfold _ModelRunner_init. apply quiet_bind; [exact Hc |].
  intros m. apply quiet_ret.
Qed.

(** X17: a stats dict without [min] makes [_createModel] raise
    KeyError('min'), and one with [min] but without [max] KeyError('max'),
    in both cases before any collaborator is called: the world is as it
    was. *)
Theorem createModel_missing_bound_KeyError :
  forall ext d w,
    (assoc "min" d = None ->
     _createModel ext (PyDict d) w = (Raise (Error "KeyError" "min"), w))
    /\ (forall minVal,
          assoc "min" d = Some minVal ->
          assoc "max" d = None ->
          _createModel ext (PyDict d) w = (Raise (Error "KeyError" "max"), w)).
Proof.
  intros ext d w. split.
  - intros H. unfold _createModel, bind, lift, py_getitem.
    rewrite H. reflexivity.
  - intros minVal Hmin Hmax. unfold _createModel, bind, lift, py_getitem.
    rewrite Hmin, Hmax. reflexivity.
Qed.

Lemma createModel_missing_bound_KeyError_witness :
  _createModel Demo.ext Demo.stats_without_min Demo.world0
  = (Raise (Error "KeyError" "min"), Demo.world0)
  /\ _createModel Demo.ext Demo.stats_without_max Demo.world0
     = (Raise (Error "KeyError" "max"), Demo.world0).
Proof.
  split.
  - apply (createModel_missing_bound_KeyError Demo.ext
             [("max", PyInt 100)] Demo.world0). reflexivity.
  - apply (createModel_missing_bound_KeyError Demo.ext
             [("min", PyInt 0)] Demo.world0) with (minVal := PyInt 0);
      reflexivity.
Defined.

Lemma createModel_trace_prefix ext theStats w minVal maxVal minResolution :
  py_getitem theStats "min" = Ok minVal ->
  py_getitem theStats "max" = Ok maxVal ->
  py_get theStats "minResolution" = Ok minResolution ->
  exists later,
    trace (snd (_createModel ext theStats w))
    = trace w
      ++ EvGetParams (PyList [PyInt 0]) minVal maxVal minResolution :: later.
Proof.
  intros Hmin Hmax Hres.
  unfold _createModel, bind, lift, call, ret.
  rewrite Hmin, Hmax, Hres.
  destruct (getScalarMetricWithTimeOfDayParams ext _ _ _ _)
    as [possibleModels | e]; cbn [fst snd trace with_trace];
    [| eexists; reflexivity].
  destruct (py_first possibleModels) as [swarmParams | e];
    [| eexists; reflexivity].
  destruct (py_getitem swarmParams "modelConfig") as [modelConfig | e];
    [| eexists; reflexivity].
  destruct (ModelFactory_create ext modelConfig) as [m | e];
    cbn [fst snd trace with_trace];
    [| eexists; rewrite <- app_assoc; reflexivity].
  destruct (enableLearning ext m) as [u | e];
    cbn [fst snd trace with_trace];
    [| eexists; rewrite <- !app_assoc; reflexivity].
  destruct (py_getitem swarmParams "inferenceArgs") as [inferenceArgs | e];
    [| eexists; cbn [fst snd trace with_trace];
       rewrite <- !app_assoc; reflexivity].
  destruct (enableInference ext m inferenceArgs) as [u' | e];
    cbn [fst snd trace with_trace];
    eexists; rewrite <- !app_assoc; reflexivity.
Qed.

(** X18: with [min] and [max] present, the first collaborator
    [_createModel] calls is the selection routine, with [metricData = [0]],
    the two bounds as found in the stats, and for [minResolution] the
    stats' entry, or [None] when the stats have none. *)
Theorem createModel_calls_selection_first :
  forall ext d w minVal maxVal,
    assoc "min" d = Some minVal ->
    assoc "max" d = Some maxVal ->
    exists later,
      trace (snd (_createModel ext (PyDict d) w))
      = trace w
        ++ EvGetParams (PyList [PyInt 0]) minVal maxVal
             (match assoc "minResolution" d with
              | Some minResolution => minResolution
              | None => PyNone
              end) :: later.
Proof.
  intros ext d w minVal maxVal Hmin Hmax.
  apply createModel_trace_prefix; unfold py_getitem, py_get.
  - rewrite Hmin. reflexivity.
  - rewrite Hmax. reflexivity.
  - destruct (assoc "minResolution" d); reflexivity.
Qed.

Lemma createModel_calls_selection_first_witness :
  exists later,
    trace (snd (_createModel Demo.ext Demo.stats_5_1 Demo.world0))
    = EvGetParams (PyList [PyInt 0]) (PyInt 5) (PyInt 1) PyNone :: later.
Proof.
  apply (createModel_calls_selection_first Demo.ext
           [("min", PyInt 5); ("max", PyInt 1)] Demo.world0
           (PyInt 5) (PyInt 1) eq_refl eq_refl).
Defined.

(** X19: when the first candidate has a [modelConfig] but no
    [inferenceArgs], [_createModel] raises KeyError('inferenceArgs') only
    after the model has been created and learning enabled on it;
    [enableInference] is never called. *)
Theorem createModel_missing_inferenceArgs :
  forall ext theStats w minVal maxVal minResolution entries others
         modelConfig m,
    py_getitem theStats "min" = Ok minVal ->
    py_getitem theStats "max" = Ok maxVal ->
    py_get theStats "minResolution" = Ok minResolution ->
    getScalarMetricWithTimeOfDayParams ext (PyList [PyInt 0])
      minVal maxVal minResolution = Ok (PyList (PyDict entries :: others)) ->
    assoc "modelConfig" entries = Some modelConfig ->
    assoc "inferenceArgs" entries = None ->
    ModelFactory_create ext modelConfig = Ok m ->
    enableLearning ext m = Ok tt ->
    _createModel ext theStats w
    = (Raise (Error "KeyError" "inferenceArgs"),
       with_trace
         (trace w
          ++ [ EvGetParams (PyList [PyInt 0]) minVal maxVal minResolution;
               EvCreate modelConfig;
               EvEnableLearning m ]) w).
Proof.
  intros ext theStats w minVal maxVal minResolution entries others
         modelConfig m Hmin Hmax Hres Hsel Hcfg Hargs Hnew Hlearn.
  unfold _createModel, bind, lift, call.
  rewrite Hmin, Hmax, Hres, Hsel.
  cbn [py_first py_getitem]. rewrite Hcfg, Hnew, Hlearn, Hargs.
  unfold with_trace. cbn [stdout stderr log trace stdout_fault stderr_fault].
  rewrite <- !app_assoc. reflexivity.
Qed.

Lemma createModel_missing_inferenceArgs_witness :
  _createModel
    (Demo.externals Demo.stats_text_0_100_1
       Demo.candidate_without_inferenceArgs)
    Demo.stats_0_100_1 Demo.world0
  = (Raise (Error "KeyError" "inferenceArgs"),
     with_trace
       [ EvGetParams (PyList [PyInt 0]) (PyInt 0) (PyInt 100) (PyInt 1);
         EvCreate (PyDict [("minVal", PyInt 0)]);
         EvEnableLearning 1 ] Demo.world0).
Proof.
  apply (createModel_missing_inferenceArgs
           (Demo.externals Demo.stats_text_0_100_1
              Demo.candidate_without_inferenceArgs)
           Demo.stats_0_100_1 Demo.world0 (PyInt 0) (PyInt 100) (PyInt 1)
           [("modelConfig", PyDict [("minVal", PyInt 0)])] []
           (PyDict [("minVal", PyInt 0)]) 1
           eq_refl eq_refl eq_refl eq_refl eq_refl eq_refl eq_refl eq_refl).
Defined.

(** X20: when [ModelFactory.create] raises on the first candidate's
    configuration, [_createModel] raises that exception and neither
    [enableLearning] nor [enableInference] is called. *)
Theorem createModel_factory_failure :
  forall ext theStats w minVal maxVal minResolution swarmParams others
         modelConfig e,
    py_getitem theStats "min" = Ok minVal ->
    py_getitem theStats "max" = Ok maxVal ->
    py_get theStats "minResolution" = Ok minResolution ->
    getScalarMetricWithTimeOfDayParams ext (PyList [PyInt 0])
      minVal maxVal minResolution = Ok (PyList (swarmParams :: others)) ->
    py_getitem swarmParams "modelConfig" = Ok modelConfig ->
    ModelFactory_create ext modelConfig = Raise e ->
    _createModel ext theStats w
    = (Raise e,
       with_trace
         (trace w
          ++ [ EvGetParams (PyList [PyInt 0]) minVal maxVal minResolution;
               EvCreate modelConfig ]) w).
Proof.
  intros ext theStats w minVal maxVal minResolution swarmParams others
         modelConfig e Hmin Hmax Hres Hsel Hcfg Hnew.
  unfold _createModel, bind, lift, call.
  rewrite Hmin, Hmax, Hres, Hsel.
  cbn [py_first]. rewrite Hcfg, Hnew.
  unfold with_trace. cbn [stdout stderr log trace stdout_fault stderr_fault].
  rewrite <- !app_assoc. reflexivity.
Qed.

Lemma createModel_factory_failure_witness :
  fst (_createModel
         (Demo.with_create
            (fun _ => Raise (Error "RuntimeError" "bad config")) Demo.ext)
         Demo.stats_0_100_1 Demo.world0)
  = Raise (Error "RuntimeError" "bad config").
Proof.
  rewrite (createModel_factory_failure
             (Demo.with_create
                (fun _ => Raise (Error "RuntimeError" "bad config")) Demo.ext)
             Demo.stats_0_100_1 Demo.world0 (PyInt 0) (PyInt 100) (PyInt 1)
             _ _ _ _ eq_refl eq_refl eq_refl eq_refl eq_refl eq_refl).
  reflexivity.
Defined.

(** ** [main], further *)

Lemma createModel_keeps_channels ext theStats w :
  stdout (snd (_createModel ext theStats w)) = stdout w
  /\ stderr (snd (_createModel ext theStats w)) = stderr w.
Proof.
  assert (Hc : quiet (_createModel ext theStats)).
  { unfold _createModel.
    repeat first [ apply quiet_lift | apply quiet_call | apply quiet_ret
                 | apply quiet_bind | intro ]. }
  destruct (Hc w) as (H1 & H2 & _). split; assumption.
Qed.

(** X21: when the arguments parse, the bootstrap returns and the input is
    already at its end, [main] returns normally (exit status 0): the only
    trace of the run is the "Processing model" log record, and stdout and
    stderr are as argument parsing left them. *)
Theorem main_returns_at_end_of_stream :
  forall ext stdin w options w1 r w2,
    _parseArgs ext w = (Ok options, w1) ->
    _createModel ext (stats options) w1 = (Ok r, w2) ->
    readline stdin = EmptyString ->
    let self := mk_ModelRunner (modelId options) None new_Anomalizer in
    main ext stdin w = (Ok tt, logged self w2)
    /\ exit_status (fst (main ext stdin w)) = 0%Z
    /\ stdout (logged self w2) = stdout w1
    /\ stderr (logged self w2) = stderr w1.
Proof.
  intros ext stdin w options w1 r w2 Hargs Hmodel Heof self.
  pose proof (createModel_Ok_None _ _ _ _ _ Hmodel) as Hr. subst r.
  assert (Hbody : main_body ext stdin w = (Ok tt, logged self w2)).
  { unfold main_body. rewrite (bind_Ok _ _ _ _ _ Hargs).
    unfold construct_and_run.
    rewrite (bind_Ok _ _ _ _ _
               (ModelRunner_init_of_createModel ext (modelId options)
                  _ _ _ _ Hmodel)).
    rewrite run_cases, (readInputMessages_eof ext stdin Heof). reflexivity. }
  pose proof (main_returns_with_body ext stdin w tt _ Hbody) as Hmain.
  split; [exact Hmain |]. rewrite Hmain.
  split; [reflexivity |].
  destruct (createModel_keeps_channels ext (stats options) w1) as [Ho He].
  rewrite Hmodel in Ho, He. split; [exact Ho | exact He].
Qed.

Lemma main_returns_at_end_of_stream_witness :
  readline [] = EmptyString
  /\ exit_status (fst (main Demo.ext [] Demo.world0)) = 0%Z.
Proof.
  split; [reflexivity |].
  apply (main_returns_at_end_of_stream Demo.ext [] Demo.world0
           (mk_Options "model-1" Demo.stats_0_100_1) Demo.world0 None
           (snd (_createModel Demo.ext Demo.stats_0_100_1 Demo.world0))
           eq_refl eq_refl eq_refl).
Defined.

(** X22: when the bootstrap fails, [main] never looks at the input: its
    outcome and the world it leaves are the same for every input stream,
    and the failure is the bootstrap's exception. *)
Theorem main_ignores_input_when_bootstrap_fails :
  forall ext w options w1 e w2 stdin stdin',
    _parseArgs ext w = (Ok options, w1) ->
    _createModel ext (stats options) w1 = (Raise e, w2) ->
    main_body ext stdin w = (Raise e, w2)
    /\ main ext stdin w = main ext stdin' w.
Proof.
  intros ext w options w1 e w2 stdin stdin' Hargs Hmodel.
  assert (Hbody : forall lines, main_body ext lines w = (Raise e, w2)).
  { intros lines. unfold main_body. rewrite (bind_Ok _ _ _ _ _ Hargs).
    unfold construct_and_run. apply bind_Raise.
    apply ModelRunner_init_raises. exact Hmodel. }
  split; [apply Hbody |].
  unfold main. rewrite (Hbody stdin), (Hbody stdin'). reflexivity.
Qed.

Lemma main_ignores_input_when_bootstrap_fails_witness :
  main (Demo.externals Demo.stats_text_0_100_1 Demo.no_candidate)
    [Demo.line_1000; Demo.line_1060] Demo.world0
  = main (Demo.externals Demo.stats_text_0_100_1 Demo.no_candidate)
      [] Demo.world0.
Proof.
  apply (main_ignores_input_when_bootstrap_fails
           (Demo.externals Demo.stats_text_0_100_1 Demo.no_candidate)
           Demo.world0 (mk_Options "model-1" Demo.stats_0_100_1) Demo.world0
           (Error "IndexError" "list index out of range")
           (snd (_createModel
                   (Demo.externals Demo.stats_text_0_100_1 Demo.no_candidate)
                   Demo.stats_0_100_1 Demo.world0))
           [Demo.line_1000; Demo.line_1060] [] eq_refl eq_refl).
Defined.

(** X23: [main] reports only instances of [Exception]: a [SystemExit] or a
    [KeyboardInterrupt] raised by its body leaves [main] as it is, with no
    log record and no error object, and the exit status is the
    [SystemExit] code, or 1 for the interrupt. *)
Theorem main_does_not_report_BaseException :
  forall ext stdin w ex w1,
    main_body ext stdin w = (Raise ex, w1) ->
    is_Exception ex = false ->
    main ext stdin w = (Raise ex, w1)
    /\ exit_status (fst (main ext stdin w))
       = match ex with SystemExit code => code | _ => 1%Z end.
Proof.
  intros ext stdin w ex w1 Hbody Hex.
  pose proof (main_lets_BaseException_through ext stdin w ex w1 Hbody Hex)
    as Hmain.
  split; [exact Hmain |]. rewrite Hmain.
  destruct ex; reflexivity.
Qed.

Lemma main_does_not_report_BaseException_witness :
  is_Exception (SystemExit 2) = false
  /\ main (Demo.with_parse_args (None, None, []) Demo.ext) [] Demo.world0
     = (Raise (SystemExit 2),
        snd (main_body (Demo.with_parse_args (None, None, []) Demo.ext) []
               Demo.world0)).
Proof.
  split; [reflexivity |].
  apply (main_does_not_report_BaseException
           (Demo.with_parse_args (None, None, []) Demo.ext) [] Demo.world0
           (SystemExit 2) _ eq_refl eq_refl).
Defined.

(** X24: when the write of the error object is itself interrupted by
    something that is not an [Exception], that interruption replaces the
    error being reported: [main] ends with it, the failure is logged once
    and nothing is written to stderr. *)
Theorem main_interrupted_while_reporting :
  forall ext stdin w ex w1 ex',
    main_body ext stdin w = (Raise ex, w1) ->
    is_Exception ex = true ->
    stderr_fault w1 = Some ex' ->
    is_Exception ex' = false ->
    main ext stdin w = (Raise ex', failed w1)
    /\ stderr (failed w1) = stderr w1.
Proof.
  intros ext stdin w ex w1 ex' Hbody Hex Hfault Hex'.
  unfold main. rewrite Hbody, Hex.
  unfold stderr_write, g_log. simpl. rewrite Hfault, Hex'.
  split; reflexivity.
Qed.

Lemma main_interrupted_while_reporting_witness :
  is_Exception NameError_opf = true
  /\ is_Exception KeyboardInterrupt = false
  /\ fst (main Demo.ext [Demo.line_1000] Demo.world_stderr_interrupted)
     = Raise KeyboardInterrupt.
Proof.
  split; [reflexivity |]. split; [reflexivity |].
  destruct (main_interrupted_while_reporting Demo.ext [Demo.line_1000]
              Demo.world_stderr_interrupted NameError_opf
              (snd (main_body Demo.ext [Demo.line_1000]
                      Demo.world_stderr_interrupted))
              KeyboardInterrupt eq_refl eq_refl eq_refl eq_refl) as [H _].
  rewrite H. reflexivity.
Defined.
